(** * auto-post-cron: the scheduled snippet-posting pipeline of [src/index.js]

    A shallow embedding of the one source file of the repository.  JavaScript
    strings are sequences of UTF-16 code units, the external services (text
    generation, image host, content store, clock, random source) are an
    explicit [World] of answers, and every [async] function is a computation
    that threads the chronological trace of outbound calls and may throw. *)

From Stdlib Require Import List NArith ZArith QArith Bool Lia String Ascii.
Import ListNotations.

Set Implicit Arguments.

(** ** JavaScript strings *)

(** A string value: its UTF-16 code units, in order. *)
Definition jsstring := list N.

(** An ASCII literal of the source, as code units. *)
Definition lit (s : string) : jsstring :=
  map N_of_ascii (list_ascii_of_string s).

Definition jsstring_eqb (a b : jsstring) : bool :=
  if list_eq_dec N.eq_dec a b then true else false.

Local Open Scope N_scope.

Definition inRange (lo hi c : N) : bool := (lo <=? c) && (c <=? hi).

(** The regular-expression class [\s]: ECMAScript WhiteSpace and
    LineTerminator code points (all in the basic plane).  [trim] strips the
    same set. *)
Definition isWhiteSpace (c : N) : bool :=
  inRange 9 13 c || (c =? 32) || (c =? 160) || (c =? 5760)
  || inRange 8192 8202 c || (c =? 8232) || (c =? 8233) || (c =? 8239)
  || (c =? 8287) || (c =? 12288) || (c =? 65279).

Definition isAsciiUpper (c : N) : bool := inRange 65 90 c.
Definition isAsciiLower (c : N) : bool := inRange 97 122 c.
Definition isDigit (c : N) : bool := inRange 48 57 c.

(** The class [\w] without the [i] and [u] flags: [A-Za-z0-9_]. *)
Definition isWordChar (c : N) : bool :=
  isAsciiUpper c || isAsciiLower c || isDigit c || (c =? 95).

Definition hyphen : N := 45.

(** The class [[^\w-]]. *)
Definition notWordOrHyphen (c : N) : bool :=
  negb (isWordChar c || (c =? hyphen)).

(** [s.replace(/[cls]+/g, rep)]: every maximal run of code units of the class
    is replaced by one copy of [rep].  [inRun] tells that the previous code
    unit belonged to the run being replaced. *)
Fixpoint replaceRuns (cls : N -> bool) (rep : jsstring) (inRun : bool)
    (s : jsstring) : jsstring :=
  match s with
  | [] => []
  | c :: r =>
      if cls c then
        if inRun then replaceRuns cls rep true r
        else rep ++ replaceRuns cls rep true r
      else c :: replaceRuns cls rep false r
  end.

Definition replaceAll (cls : N -> bool) (rep : jsstring) (s : jsstring)
    : jsstring :=
  replaceRuns cls rep false s.

(** [String.prototype.trim]. *)
Fixpoint trimStart (s : jsstring) : jsstring :=
  match s with
  | [] => []
  | c :: r => if isWhiteSpace c then trimStart r else s
  end.

Definition trimEnd (s : jsstring) : jsstring := rev (trimStart (rev s)).

Definition trim (s : jsstring) : jsstring := trimEnd (trimStart s).

(** [s.split(' ')]: the first piece and the pieces after it. *)
Fixpoint splitPieces (s : jsstring) : jsstring * list jsstring :=
  match s with
  | [] => ([], [])
  | c :: r =>
      let (p, ps) := splitPieces r in
      if c =? 32 then ([], p :: ps) else (c :: p, ps)
  end.

Definition splitSpace (s : jsstring) : list jsstring :=
  let (p, ps) := splitPieces s in p :: ps.

(** The ASCII part of Unicode lowercasing. *)
Definition lowerAscii (c : N) : N := if isAsciiUpper c then c + 32 else c.

(** A lowercasing that knows the ASCII letters only and leaves every other
    code unit alone; it agrees with [String.prototype.toLowerCase] on every
    string without cased characters outside ASCII. *)
Definition asciiToLowerCase (s : jsstring) : jsstring := map lowerAscii s.

Section Slug.

(** [String.prototype.toLowerCase] of the engine: the Unicode default case
    conversion, whose tables belong to the runtime and not to the
    repository. *)
Variable toLowerCase : jsstring -> jsstring.

(** [generateSlug], line 23. *)
Definition generateSlug (title : jsstring) : jsstring :=
  replaceAll notWordOrHyphen []
    (replaceAll isWhiteSpace [hyphen] (toLowerCase title)).

End Slug.

Local Close Scope N_scope.

(** ** The prompt list and the explanation table *)

(** [promptList], lines 26-38. *)
Definition promptList : list jsstring :=
  [ lit "Write a JavaScript function to reverse a string.";
    lit "Generate a Python script that reads a CSV file and prints the contents.";
    lit "Create an HTML page with a simple form and a submit button.";
    lit "Write a CSS rule that creates a hover effect for buttons.";
    lit "Generate a JavaScript snippet for handling form validation.";
    lit "Write a Python script that calculates the factorial of a number.";
    lit "Create a basic Node.js Express server with one route.";
    lit "Generate a JavaScript code snippet for async/await function handling.";
    lit "Write a function in JavaScript to calculate Fibonacci numbers.";
    lit "Create a batch script to automate file backups." ].

(** The own properties of the object literal [explanationMapping],
    lines 142-154, in source order. *)
Definition explanationMapping : list (jsstring * jsstring) :=
  [ (lit "Write a JavaScript function to reverse a string.",
     lit "reverse a string");
    (lit "Generate a Python script that reads a CSV file and prints the contents.",
     lit "read and print contents of a CSV file");
    (lit "Create an HTML page with a simple form and a submit button.",
     lit "create a form for user input");
    (lit "Write a CSS rule that creates a hover effect for buttons.",
     lit "add hover effects to buttons");
    (lit "Generate a JavaScript snippet for handling form validation.",
     lit "validate user input in a form");
    (lit "Write a Python script that calculates the factorial of a number.",
     lit "calculate the factorial of a number");
    (lit "Create a basic Node.js Express server with one route.",
     lit "set up a basic web server");
    (lit "Generate a JavaScript code snippet for async/await function handling.",
     lit "handle asynchronous operations in JavaScript");
    (lit "Write a function in JavaScript to calculate Fibonacci numbers.",
     lit "calculate Fibonacci numbers");
    (lit "Create a batch script to automate file backups.",
     lit "automate file backups using a batch script") ].

Definition fallbackExplanation : jsstring := lit "execute a programming task".

(** Own-property lookup; of two members with one name the later one wins. *)
Fixpoint lookupOwn (A : Type) (key : jsstring) (members : list (jsstring * A))
    : option A :=
  match members with
  | [] => None
  | (k, v) :: rest =>
      match lookupOwn key rest with
      | Some v' => Some v'
      | None => if jsstring_eqb key k then Some v else None
      end
  end.

(** The property names every ordinary object inherits from
    [Object.prototype]. *)
Definition objectPrototypeNames : list jsstring :=
  map lit
    [ "constructor"; "hasOwnProperty"; "isPrototypeOf"; "propertyIsEnumerable";
      "toLocaleString"; "toString"; "valueOf"; "__proto__";
      "__defineGetter__"; "__defineSetter__";
      "__lookupGetter__"; "__lookupSetter__" ]%string.

(** What a property read on [explanationMapping] can yield. *)
Inductive propval :=
| PString (s : jsstring)          (* an own member: one of the explanations *)
| PInherited (name : jsstring).   (* the member of that name of Object.prototype *)

(** [obj[key]] on an object literal with string members: own members first,
    then the prototype; [None] is [undefined]. *)
Definition getProperty (own : list (jsstring * jsstring)) (key : jsstring)
    : option propval :=
  match lookupOwn key own with
  | Some s => Some (PString s)
  | None =>
      if existsb (jsstring_eqb key) objectPrototypeNames
      then Some (PInherited key) else None
  end.

(** ToBoolean: the empty string is falsy, functions and objects are truthy. *)
Definition truthy (v : propval) : bool :=
  match v with
  | PString [] => false
  | PString (_ :: _) => true
  | PInherited _ => true
  end.

(** [generateProblemExplanation], lines 141-157:
    [explanationMapping[prompt] || "execute a programming task"]. *)
Definition generateProblemExplanation (prompt : jsstring) : propval :=
  match getProperty explanationMapping prompt with
  | Some v => if truthy v then v else PString fallbackExplanation
  | None => PString fallbackExplanation
  end.

(** ToString of such a value inside a template literal.  The inherited
    members are native functions, except [__proto__], which reads the
    prototype object itself; [constructor] is the function [Object]. *)
Definition propvalToString (v : propval) : jsstring :=
  match v with
  | PString s => s
  | PInherited name =>
      if jsstring_eqb name (lit "__proto__") then lit "[object Object]"
      else
        lit "function "
        ++ (if jsstring_eqb name (lit "constructor") then lit "Object" else name)
        ++ lit "() { [native code] }"
  end.

(** ToString of a possibly [undefined] string. *)
Definition optToString (o : option jsstring) : jsstring :=
  match o with
  | Some s => s
  | None => lit "undefined"
  end.

(** ** The random prompt selection *)

Local Open Scope Z_scope.

(** A finite non-negative double, as the number [mant * 2 ^ expo]. *)
Record double := { mant : Z; expo : Z }.

(** The doubles of [[0,1)], the range of [Math.random()]: at most 53
    significant bits at an exponent between the subnormal one and [-53]. *)
Definition inUnitInterval (x : double) : bool :=
  (0 <=? mant x) && (mant x <? 2 ^ 53)
  && (-1074 <=? expo x) && (expo x <=? -53).

(** [M / 2 ^ d] rounded to the nearest integer, ties to even. *)
Definition roundShift (M d : Z) : Z :=
  if d <=? 0 then M
  else
    let q := Z.shiftr M d in
    let r := M - Z.shiftl q d in
    let half := Z.shiftl 1 (d - 1) in
    if r <? half then q
    else if half <? r then q + 1
    else if Z.even q then q else q + 1.

(** [x * n] in binary64 for a double [x] of [[0,1)] and a small
    non-negative integer [n]: the exact product [mant x * n * 2 ^ expo x]
    keeps its 53 leading bits, rounded to nearest even.  The exponent never
    falls below that of [x], so no underflow occurs. *)
Definition mulInteger (x : double) (n : Z) : double :=
  let M := mant x * n in
  let d := Z.max 0 (Z.log2 M + 1 - 53) in
  {| mant := roundShift M d; expo := expo x + d |}.

(** [Math.floor] on a finite non-negative double. *)
Definition mathFloor (x : double) : Z :=
  if expo x <? 0 then Z.shiftr (mant x) (- expo x)
  else Z.shiftl (mant x) (expo x).

(** The rational a double denotes. *)
Definition value (x : double) : Q :=
  if expo x <? 0 then mant x # Z.to_pos (2 ^ (- expo x))
  else inject_Z (mant x * 2 ^ expo x).

(** [Math.floor(Math.random() * promptList.length)], line 44. *)
Definition selectIndex (random : double) : Z :=
  mathFloor (mulInteger random (Z.of_nat (List.length promptList))).

(** [promptList[i]]; out of range it is [undefined]. *)
Definition promptAt (i : Z) : option jsstring :=
  if i <? 0 then None else nth_error promptList (Z.to_nat i).

Definition selectPrompt (random : double) : option jsstring :=
  promptAt (selectIndex random).

Local Close Scope Z_scope.

(** ** [encodeURIComponent] *)

Local Open Scope N_scope.

Definition isUriUnreserved (c : N) : bool :=
  isWordChar c
  || existsb (N.eqb c) [45; 46; 33; 126; 42; 39; 40; 41].

Definition hexDigit (n : N) : N := if n <? 10 then 48 + n else 55 + n.

Definition percentByte (b : N) : jsstring :=
  [37; hexDigit (b / 16); hexDigit (b mod 16)].

Definition utf8 (cp : N) : list N :=
  if cp <? 128 then [cp]
  else if cp <? 2048 then [192 + cp / 64; 128 + cp mod 64]
  else if cp <? 65536 then
    [224 + cp / 4096; 128 + (cp / 64) mod 64; 128 + cp mod 64]
  else
    [240 + cp / 262144; 128 + (cp / 4096) mod 64;
     128 + (cp / 64) mod 64; 128 + cp mod 64].

Definition percentEncode (cp : N) : jsstring :=
  flat_map percentByte (utf8 cp).

(** [None] is the URIError thrown on an unpaired surrogate. *)
Fixpoint encodeURIComponent (s : jsstring) : option jsstring :=
  match s with
  | [] => Some []
  | c :: r =>
      if isUriUnreserved c then option_map (cons c) (encodeURIComponent r)
      else if inRange 56320 57343 c then None
      else if inRange 55296 56319 c then
        match r with
        | lo :: r' =>
            if inRange 56320 57343 lo then
              option_map
                (app (percentEncode
                        ((c - 55296) * 1024 + (lo - 56320) + 65536)))
                (encodeURIComponent r')
            else None
        | [] => None
        end
      else option_map (app (percentEncode c)) (encodeURIComponent r)
  end.

Local Close Scope N_scope.

(** ** Values received from the network *)

(** A parsed response body.  Numbers are the rationals they denote. *)
Unset Elimination Schemes.
Inductive json :=
| JNull
| JBool (b : bool)
| JNumber (q : Q)
| JString (s : jsstring)
| JArray (items : list json)
| JObject (members : list (jsstring * json)).
Set Elimination Schemes.

(** A value read out of such a body: [undefined], or a piece of it
    ([null] is [VData JNull]). *)
Inductive jsvalue :=
| VUndefined
| VData (j : json).

(** What the code can catch. *)
Inductive jserror :=
| NetworkFailure (message : jsstring)  (* axios: the request got no response *)
| BadStatus (status : Z)               (* axios: status outside 200..299 *)
| StoreError (message : jsstring)      (* the content-store client rejected *)
| TypeError
| URIError.

(** The outcome of evaluating an expression. *)
Inductive completion (A : Type) :=
| Normal (a : A)
| Throw (e : jserror).

Arguments Throw {A} e.

(** [v.name] for the member names the source reads ([choices], [text],
    [_id]).  None of them is defined on a built-in prototype, so on anything
    but [undefined] and [null] the read yields the own member or
    [undefined]. *)
Definition getMember (v : jsvalue) (name : jsstring) : completion jsvalue :=
  match v with
  | VUndefined => Throw TypeError
  | VData JNull => Throw TypeError
  | VData (JObject members) =>
      Normal (match lookupOwn name members with
              | Some j => VData j
              | None => VUndefined
              end)
  | VData _ => Normal VUndefined
  end.

(** [v[0]]: the first element of an array, the first code unit of a string,
    the member named ["0"] of an object. *)
Definition getFirst (v : jsvalue) : completion jsvalue :=
  match v with
  | VUndefined => Throw TypeError
  | VData JNull => Throw TypeError
  | VData (JArray items) =>
      Normal (match items with
              | j :: _ => VData j
              | [] => VUndefined
              end)
  | VData (JString s) =>
      Normal (match s with
              | c :: _ => VData (JString [c])
              | [] => VUndefined
              end)
  | VData (JObject members) =>
      Normal (match lookupOwn (lit "0") members with
              | Some j => VData j
              | None => VUndefined
              end)
  | VData _ => Normal VUndefined
  end.

(** [v.trim()]: only a string has the method. *)
Definition callTrim (v : jsvalue) : completion jsstring :=
  match v with
  | VData (JString s) => Normal (trim s)
  | _ => Throw TypeError
  end.

(** What the network gives back for one request. *)
Inductive httpResult (A : Type) :=
| NoResponse (message : jsstring)
| Response (status : Z) (data : A).

Arguments NoResponse {A} message.

(** axios settles a request: it rejects on a transport failure and, with the
    default [validateStatus], on every status outside 200..299. *)
Definition axiosSettle (A : Type) (r : httpResult A) : completion A :=
  match r with
  | NoResponse m => Throw (NetworkFailure m)
  | Response st d =>
      if ((200 <=? st) && (st <? 300))%Z then Normal d
      else Throw (BadStatus st)
  end.

(** What the content-store client gives back for one call. *)
Inductive storeResult :=
| Resolved (document : json)
| Rejected (message : jsstring).

Definition storeSettle (r : storeResult) : completion json :=
  match r with
  | Resolved d => Normal d
  | Rejected m => Throw (StoreError m)
  end.

(** [process.env.NAME]: a string or [undefined]. *)
Definition envValue (o : option jsstring) : jsvalue :=
  match o with
  | Some s => VData (JString s)
  | None => VUndefined
  end.

(** ** The post document *)

Record Reference := { ref_type : jsstring; _ref : jsvalue }.

Record Slug := { slug_type : jsstring; current : jsstring }.

Record Image := { image_type : jsstring; asset : Reference }.

Record Span := { span_type : jsstring; text : jsstring }.

Inductive Block :=
| TextBlock (block_type : jsstring) (children : list Span)
| CodeBlock (block_type title code language : jsstring).

Record Document := {
  doc_type : jsstring;
  title : jsstring;
  slug : Slug;
  author : Reference;
  mainImage : Image;
  categories : list Reference;
  publishedAt : jsstring;
  body : list Block
}.

(** The body of the completion request, lines 48-53. *)
Record CompletionRequest := {
  model : jsstring;
  prompt : option jsstring;
  max_tokens : Z;
  temperature : Q
}.

(** ** The outside world of one pipeline run *)

Record World := {
  mathRandom : double;
  env_OPENAI_API_KEY : option jsstring;
  env_SANITY_AUTHOR_ID : option jsstring;
  env_SANITY_CATEGORY_ID : option jsstring;
  (* the answer to axios.post(url, body, {headers: {Authorization}}) *)
  httpPost : jsstring -> CompletionRequest -> jsstring -> httpResult json;
  (* new Date().toLocaleDateString() when the title is built *)
  toLocaleDateString : jsstring;
  (* the answer to axios.get(url, {responseType: 'arraybuffer'}) *)
  httpGet : jsstring -> httpResult (list N);
  uuidv4 : jsstring;
  (* the answer to client.assets.upload('image', buffer, {filename}) *)
  assetsUpload : list N -> jsstring -> storeResult;
  (* new Date().toISOString() when the document is built *)
  toISOString : jsstring;
  (* the answer to client.create(document) *)
  clientCreate : Document -> storeResult
}.

(** The observable steps of a run, in the order they happen. *)
Inductive Event :=
| EvPost (url : jsstring) (request : CompletionRequest) (authorization : jsstring)
| EvGet (url : jsstring)
| EvUpload (kind : jsstring) (bytes : list N) (filename : jsstring)
| EvCreate (document : Document)
| EvLog (label : jsstring) (arg : option jsstring)
| EvError (label : jsstring) (error : jserror).

(** ** Asynchronous code: a trace and a completion *)

Definition Async (A : Type) : Type :=
  list Event -> completion A * list Event.

Definition ret (A : Type) (a : A) : Async A := fun t => (Normal a, t).

Definition bind (A B : Type) (m : Async A) (k : A -> Async B) : Async B :=
  fun t =>
    match m t with
    | (Normal a, t') => k a t'
    | (Throw e, t') => (Throw e, t')
    end.

Definition emit (ev : Event) : Async unit := fun t => (Normal tt, t ++ [ev]).

Definition liftC (A : Type) (c : completion A) : Async A := fun t => (c, t).

(** [try { body } catch (error) { handler }]. *)
Definition tryCatch (A : Type) (body : Async A) (handler : jserror -> Async A)
    : Async A :=
  fun t =>
    match body t with
    | (Normal a, t') => (Normal a, t')
    | (Throw e, t') => handler e t'
    end.

Declare Scope async_scope.
Delimit Scope async_scope with async.

Notation "x <- m ;; k" := (bind m (fun x => k))
  (at level 61, m at next level, right associativity) : async_scope.
Notation "m ;; k" := (bind m (fun _ => k))
  (at level 61, right associativity) : async_scope.

(** The trace of a whole run, started from nothing. *)
Definition run (A : Type) (m : Async A) : list Event := snd (m []).

Definition outcome (A : Type) (m : Async A) : completion A := fst (m []).

(** ** The pipeline *)

Definition OPENAI_API_URL : jsstring :=
  lit "https://api.openai.com/v1/completions".

Definition PLACEHOLDER_IMAGE_API : jsstring :=
  lit "https://via.placeholder.com/800x400.png?text=".

(** The three-unit sequence the source file holds where an apostrophe was
    meant, and the four-unit sequences it holds for the pictographs. *)
Definition apostrophe : jsstring := [226; 8364; 8482]%N.
Definition pictoStar : jsstring := [240; 376; 338; 376]%N.
Definition pictoWave : jsstring := [240; 376; 8216; 8249]%N.
Definition pictoBrain : jsstring := [240; 376; 167; 160]%N.
Definition pictoSpeech : jsstring := [240; 376; 8217; 172]%N.

Definition announcementText : jsstring :=
  pictoStar ++ lit " Here" ++ apostrophe ++ lit "s Today" ++ apostrophe
  ++ lit "s Code Snippet! " ++ pictoStar.

Definition greetingText : jsstring :=
  pictoWave ++ lit " Hello, developers! Ready to level up? Check out today"
  ++ apostrophe ++ lit "s code snippet below.".

Definition explanationText (problemExplanation : propval) : jsstring :=
  pictoBrain ++ lit " What" ++ apostrophe
  ++ lit "s happening here? This snippet demonstrates how to "
  ++ propvalToString problemExplanation ++ lit ".".

Definition closingText : jsstring :=
  pictoSpeech ++ lit " Got questions? Share your thoughts below!".

Definition textBlock (t : jsstring) : Block :=
  TextBlock (lit "block") [ {| span_type := lit "span"; text := t |} ].

(** The [body] array of the document, lines 107-130. *)
Definition postBody (snippet : jsstring) (problemExplanation : propval)
    : list Block :=
  [ textBlock announcementText;
    textBlock greetingText;
    CodeBlock (lit "code") (lit "Code Snippet") snippet (lit "javascript");
    textBlock (explanationText problemExplanation);
    textBlock closingText ].

Section Pipeline.

Variable toLowerCase : jsstring -> jsstring.
Variable w : World.

Local Open Scope async_scope.

(** [uploadImageToSanity], lines 160-173.  With [responseType:
    'arraybuffer'] the body is a Buffer, which [Buffer.from] copies. *)
Definition uploadImageToSanity (imageUrl : jsstring) : Async jsvalue :=
  tryCatch
    (emit (EvGet imageUrl) ;;
     data <- liftC (axiosSettle (httpGet w imageUrl)) ;;
     let buffer := data in
     let filename := lit "code-snippet-" ++ uuidv4 w ++ lit ".png" in
     emit (EvUpload (lit "image") buffer filename) ;;
     imageUploadResponse <- liftC (storeSettle (assetsUpload w buffer filename)) ;;
     liftC (getMember (VData imageUploadResponse) (lit "_id")))
    (fun error =>
       emit (EvError (lit "Error uploading image to Sanity:") error) ;;
       ret (VData JNull)).

(** The object literal [document], lines 85-131, once the image step has
    settled with [assetId]. *)
Definition postDocument (title slug snippet : jsstring)
    (problemExplanation : propval) (assetId : jsvalue) : Document :=
  {| doc_type := lit "post";
     title := title;
     slug := {| slug_type := lit "slug"; current := slug |};
     author := {| ref_type := lit "reference";
                  _ref := envValue (env_SANITY_AUTHOR_ID w) |};
     mainImage :=
       {| image_type := lit "image";
          asset := {| ref_type := lit "reference"; _ref := assetId |} |};
     categories :=
       [ {| ref_type := lit "reference";
            _ref := envValue (env_SANITY_CATEGORY_ID w) |} ];
     publishedAt := toISOString w;
     body := postBody snippet problemExplanation |}.

(** [createSanityPost], lines 78-138. *)
Definition createSanityPost (title snippet : jsstring)
    (problemExplanation : propval) : Async unit :=
  tryCatch
    (let slug := generateSlug toLowerCase title in
     encoded <- liftC (match encodeURIComponent title with
                       | Some e => Normal e
                       | None => Throw URIError
                       end) ;;
     let imageUrl := PLACEHOLDER_IMAGE_API ++ encoded in
     assetId <- uploadImageToSanity imageUrl ;;
     let document :=
       postDocument title slug snippet problemExplanation assetId in
     emit (EvCreate document) ;;
     _ <- liftC (storeSettle (clientCreate w document)) ;;
     emit (EvLog (lit "Snippet post saved to Sanity.") None))
    (fun error =>
       emit (EvError (lit "Error saving snippet post to Sanity:") error)).

(** The request body and the Authorization header of the completion
    call. *)
Definition completionRequest (randomPrompt : option jsstring)
    : CompletionRequest :=
  {| model := lit "text-davinci-003";
     prompt := randomPrompt;
     max_tokens := 150;
     temperature := 1 # 2 |}.

Definition authorization : jsstring :=
  lit "Bearer " ++ optToString (env_OPENAI_API_KEY w).

(** [response.data.choices[0].text.trim()], line 61. *)
Definition snippetOf (data : json) : completion jsstring :=
  match getMember (VData data) (lit "choices") with
  | Throw e => Throw e
  | Normal choices =>
      match getFirst choices with
      | Throw e => Throw e
      | Normal first =>
          match getMember first (lit "text") with
          | Throw e => Throw e
          | Normal t => callTrim t
          end
      end
  end.

(** The title, line 65. *)
Definition uniqueTitleOf (randomPrompt : jsstring) : jsstring :=
  optToString (nth_error (splitSpace randomPrompt) 1)
  ++ lit " Example - " ++ toLocaleDateString w.

(** [generateCodeSnippet], lines 41-75: the entry point the scheduler
    calls. *)
Definition generateCodeSnippet : Async unit :=
  tryCatch
    (let randomPrompt := selectPrompt (mathRandom w) in
     emit (EvPost OPENAI_API_URL (completionRequest randomPrompt)
             authorization) ;;
     data <- liftC (axiosSettle
                      (httpPost w OPENAI_API_URL
                         (completionRequest randomPrompt) authorization)) ;;
     snippet <- liftC (snippetOf data) ;;
     emit (EvLog (lit "Generated Snippet:") (Some snippet)) ;;
     (* randomPrompt.split throws on undefined *)
     chosen <- liftC (match randomPrompt with
                      | Some p => Normal p
                      | None => Throw TypeError
                      end) ;;
     let uniqueTitle := uniqueTitleOf chosen in
     let problemExplanation := generateProblemExplanation chosen in
     createSanityPost uniqueTitle snippet problemExplanation)
    (fun error => emit (EvError (lit "Error generating snippet:") error)).

End Pipeline.

(** ** Vocabulary of the properties *)

(** The alphabet of a slug: lowercase ASCII letters, digits, underscore and
    hyphen. *)
Definition isSlugChar (c : N) : bool :=
  isAsciiLower c || isDigit c || (c =? 95)%N || (c =? hyphen)%N.

(** The first element of [choices], when the value has one. *)
Definition firstChoice (choices : json) : option json :=
  match choices with
  | JArray (j :: _) => Some j
  | JObject members => lookupOwn (lit "0") members
  | JString (c :: _) => Some (JString [c])
  | _ => None
  end.

(** The text field the completion call is expected to carry:
    [data.choices[0].text], when it is there and is a string. *)
Definition expectedText (data : json) : option jsstring :=
  match data with
  | JObject members =>
      match lookupOwn (lit "choices") members with
      | Some choices =>
          match firstChoice choices with
          | Some (JObject fields) =>
              match lookupOwn (lit "text") fields with
              | Some (JString t) => Some t
              | _ => None
              end
          | _ => None
          end
      | None => None
      end
  | _ => None
  end.

(** The three ways the text-generation call fails. *)
Inductive TextGenerationFails : httpResult json -> Prop :=
| transport_error : forall message,
    TextGenerationFails (NoResponse message)
| non_success_response : forall status data,
    (status < 200 \/ 300 <= status)%Z ->
    TextGenerationFails (Response status data)
| missing_text_field : forall status data,
    expectedText data = None ->
    TextGenerationFails (Response status data).

(** The answer of the world to the completion call of this run. *)
Definition completionAnswer (w : World) : httpResult json :=
  httpPost w OPENAI_API_URL
    (completionRequest (selectPrompt (mathRandom w))) (authorization w).

(** The snippet of this run: the trimmed text of the answer, when the call
    succeeds with a status of 200..299 and the body carries the text. *)
Definition generatedSnippet (w : World) : option jsstring :=
  match completionAnswer w with
  | NoResponse _ => None
  | Response status data =>
      if ((200 <=? status) && (status <? 300))%Z
      then option_map trim (expectedText data)
      else None
  end.

(** The name under which the image of this run is uploaded. *)
Definition uploadName (w : World) : jsstring :=
  lit "code-snippet-" ++ uuidv4 w ++ lit ".png".

(** The image fetch fails, or it succeeds and the upload is rejected. *)
Inductive ImageAcquisitionFails (w : World) (imageUrl : jsstring) : Prop :=
| fetch_no_response : forall message,
    httpGet w imageUrl = NoResponse message ->
    ImageAcquisitionFails w imageUrl
| fetch_bad_status : forall status bytes,
    httpGet w imageUrl = Response status bytes ->
    (status < 200 \/ 300 <= status)%Z ->
    ImageAcquisitionFails w imageUrl
| upload_rejected : forall status bytes message,
    httpGet w imageUrl = Response status bytes ->
    (200 <= status < 300)%Z ->
    assetsUpload w bytes (uploadName w) = Rejected message ->
    ImageAcquisitionFails w imageUrl.

(** Half a unit in the last place of the doubles just below one: [2 ^ -53]. *)
Definition sliver : Q := 1 # 9007199254740992.

(** ** A sample world: the end-to-end scenario *)

Definition reverseSnippet : jsstring :=
  lit "function reverse(s){return s.split('').reverse().join('')}".

Definition sampleCompletion : json :=
  JObject
    [ (lit "id", JString (lit "cmpl-1"));
      (lit "choices",
       JArray
         [ JObject
             [ (lit "text",
                JString ([10; 10]%N ++ reverseSnippet ++ [10]%N));
               (lit "index", JNumber 0) ] ]) ].

Definition sampleWorld : World :=
  {| mathRandom := {| mant := 0; expo := -53 |};
     env_OPENAI_API_KEY := Some (lit "sk-test");
     env_SANITY_AUTHOR_ID := Some (lit "author-1");
     env_SANITY_CATEGORY_ID := Some (lit "category-1");
     httpPost := fun _ _ _ => Response 200 sampleCompletion;
     toLocaleDateString := lit "11/3/2026";
     httpGet := fun _ => Response 200 [137; 80; 78; 71]%N;
     uuidv4 := lit "0b8f6a52-5d0c-4c9e-9a63-2f6c1f0e7d11";
     assetsUpload :=
       fun _ _ => Resolved (JObject [ (lit "_id", JString (lit "image-abc")) ]);
     toISOString := lit "2026-11-03T16:00:00.000Z";
     clientCreate := fun _ => Resolved JNull |}.

(** The same world with the completion service unreachable. *)
Definition offlineWorld : World :=
  {| mathRandom := mathRandom sampleWorld;
     env_OPENAI_API_KEY := env_OPENAI_API_KEY sampleWorld;
     env_SANITY_AUTHOR_ID := env_SANITY_AUTHOR_ID sampleWorld;
     env_SANITY_CATEGORY_ID := env_SANITY_CATEGORY_ID sampleWorld;
     httpPost := fun _ _ _ => NoResponse (lit "connect ECONNREFUSED");
     toLocaleDateString := toLocaleDateString sampleWorld;
     httpGet := httpGet sampleWorld;
     uuidv4 := uuidv4 sampleWorld;
     assetsUpload := assetsUpload sampleWorld;
     toISOString := toISOString sampleWorld;
     clientCreate := clientCreate sampleWorld |}.

(** The same world with the image host answering 404. *)
Definition noImageWorld : World :=
  {| mathRandom := mathRandom sampleWorld;
     env_OPENAI_API_KEY := env_OPENAI_API_KEY sampleWorld;
     env_SANITY_AUTHOR_ID := env_SANITY_AUTHOR_ID sampleWorld;
     env_SANITY_CATEGORY_ID := env_SANITY_CATEGORY_ID sampleWorld;
     httpPost := httpPost sampleWorld;
     toLocaleDateString := toLocaleDateString sampleWorld;
     httpGet := fun _ => Response 404 [];
     uuidv4 := uuidv4 sampleWorld;
     assetsUpload := assetsUpload sampleWorld;
     toISOString := toISOString sampleWorld;
     clientCreate := clientCreate sampleWorld |}.

(** The document the sample world ends up creating. *)
Definition samplePost : Document :=
  postDocument sampleWorld
    (lit "a Example - 11/3/2026") (lit "a-example---1132026") reverseSnippet
    (PString (lit "reverse a string"))
    (VData (JString (lit "image-abc"))).

(** The same document without an image. *)
Definition samplePostNoImage : Document :=
  postDocument noImageWorld
    (lit "a Example - 11/3/2026") (lit "a-example---1132026") reverseSnippet
    (PString (lit "reverse a string"))
    (VData JNull).

(** The completion call every run starts with. *)
Definition postEvent (w : World) : Event :=
  EvPost OPENAI_API_URL (completionRequest (selectPrompt (mathRandom w)))
    (authorization w).

(** A double inside the [i]-th tenth of the unit interval:
    [(13 i + 6) / 128]. *)
Definition midCell (i : Z) : double :=
  {| mant := (13 * i + 6) * 2 ^ 46; expo := -53 |}.

(** The double written [0.7]: [6305039478318694 * 2 ^ -53], just below
    seven tenths. *)
Definition double_0_7 : double :=
  {| mant := 6305039478318694; expo := -53 |}.

(** ** Proof automation *)

(** Turns a goal or hypothesis built from the character-class tests into
    linear arithmetic over the code unit. *)
Ltac class_arith :=
  unfold isSlugChar, notWordOrHyphen, isWordChar, isWhiteSpace, isAsciiUpper,
    isAsciiLower, isDigit, lowerAscii, inRange, hyphen in *;
  repeat match goal with
         | H : _ |- _ =>
             progress rewrite ?negb_true_iff, ?negb_false_iff,
               ?orb_true_iff, ?orb_false_iff, ?andb_true_iff, ?andb_false_iff,
               ?N.leb_le, ?N.leb_gt, ?N.eqb_eq, ?N.eqb_neq in H
         end;
  rewrite ?negb_true_iff, ?negb_false_iff,
    ?orb_true_iff, ?orb_false_iff, ?andb_true_iff, ?andb_false_iff,
    ?N.leb_le, ?N.leb_gt, ?N.eqb_eq, ?N.eqb_neq.

(** Unfolds the combinators of [Async]. *)
Ltac unfold_async :=
  unfold bind, emit, liftC, ret, tryCatch, axiosSettle, storeSettle in *.

Unset Implicit Arguments.

(** ** The scheduled callback *)

(** The callback handed to [cron.schedule], lines 177-180: one log line,
    then the run.  The promise of [generateCodeSnippet] is not awaited; the
    events of the run follow the log line. *)
Definition cronCallback (toLowerCase : jsstring -> jsstring) (w : World)
    : Async unit :=
  (emit (EvLog (lit "Running cron job to generate and post code snippet...")
           None) ;;
   generateCodeSnippet toLowerCase w)%async.

(** ** Further vocabulary *)

(** The kinds of outbound calls. *)
Definition isPost (ev : Event) : bool :=
  match ev with EvPost _ _ _ => true | _ => false end.

Definition isGet (ev : Event) : bool :=
  match ev with EvGet _ => true | _ => false end.

Definition isUpload (ev : Event) : bool :=
  match ev with EvUpload _ _ _ => true | _ => false end.

Definition isCreate (ev : Event) : bool :=
  match ev with EvCreate _ => true | _ => false end.

(** How many events of a kind a trace holds. *)
Definition count (kind : Event -> bool) (t : list Event) : nat :=
  List.length (filter kind t).

(** A computation that only appends to the trace it is given, and whose
    events and completion do not depend on that trace. *)
Definition framed {A : Type} (m : Async A) : Prop :=
  forall t, m t = (fst (m []), t ++ snd (m [])).

(** The value the image step settles with. *)
Definition assetOf (w : World) (imageUrl : jsstring) : jsvalue :=
  match outcome (uploadImageToSanity w imageUrl) with
  | Normal v => v
  | Throw _ => VData JNull
  end.

(** The line [createSanityPost] ends with, by what the store answered. *)
Definition settledLine (r : storeResult) : Event :=
  match r with
  | Resolved _ => EvLog (lit "Snippet post saved to Sanity.") None
  | Rejected m =>
      EvError (lit "Error saving snippet post to Sanity:") (StoreError m)
  end.

(** A UTF-16 surrogate code unit. *)
Definition isSurrogate (c : N) : bool := inRange 55296 57343 c.

(** The characters [encodeURIComponent] can put out: the unreserved ones and
    the percent sign (the hexadecimal digits are word characters). *)
Definition isUrlSafe (c : N) : bool := isUriUnreserved c || (c =? 37)%N.

(** A computation that completes normally from every trace. *)
Definition neverThrows {A : Type} (m : Async A) : Prop :=
  forall t, exists a t', m t = (Normal a, t').

(** The success test of axios on a status. *)
Definition okStatus (status : Z) : bool :=
  ((200 <=? status) && (status <? 300))%Z.

Definition isHighSurrogate (c : N) : bool := inRange 55296 56319 c.
Definition isLowSurrogate (c : N) : bool := inRange 56320 57343 c.

(** Well-formed UTF-16: every surrogate is half of a pair, a high one
    followed by a low one. *)
Inductive WellFormed : jsstring -> Prop :=
| wf_empty : WellFormed []
| wf_unit : forall c s,
    isSurrogate c = false -> WellFormed s -> WellFormed (c :: s)
| wf_pair : forall hi lo s,
    isHighSurrogate hi = true -> isLowSurrogate lo = true ->
    WellFormed s -> WellFormed (hi :: lo :: s).

(** The sample world answering with a text of blanks and line breaks
    only. *)
Definition blankCompletion : json :=
  JObject
    [ (lit "choices",
       JArray [ JObject [ (lit "text", JString [32; 10; 9; 32]%N) ] ]) ].

Definition blankWorld : World :=
  {| mathRandom := mathRandom sampleWorld;
     env_OPENAI_API_KEY := env_OPENAI_API_KEY sampleWorld;
     env_SANITY_AUTHOR_ID := env_SANITY_AUTHOR_ID sampleWorld;
     env_SANITY_CATEGORY_ID := env_SANITY_CATEGORY_ID sampleWorld;
     httpPost := fun _ _ _ => Response 200 blankCompletion;
     toLocaleDateString := toLocaleDateString sampleWorld;
     httpGet := httpGet sampleWorld;
     uuidv4 := uuidv4 sampleWorld;
     assetsUpload := assetsUpload sampleWorld;
     toISOString := toISOString sampleWorld;
     clientCreate := clientCreate sampleWorld |}.

(** The sample world started without any of its environment variables. *)
Definition unconfiguredWorld : World :=
  {| mathRandom := mathRandom sampleWorld;
     env_OPENAI_API_KEY := None;
     env_SANITY_AUTHOR_ID := None;
     env_SANITY_CATEGORY_ID := None;
     httpPost := httpPost sampleWorld;
     toLocaleDateString := toLocaleDateString sampleWorld;
     httpGet := httpGet sampleWorld;
     uuidv4 := uuidv4 sampleWorld;
     assetsUpload := assetsUpload sampleWorld;
     toISOString := toISOString sampleWorld;
     clientCreate := clientCreate sampleWorld |}.

(** ** A random source of 53 bits *)

(** The [k]-th of the [2 ^ 53] equally spaced doubles of [[0,1)]:
    [k * 2 ^ -53].  A generator that draws 53 uniform bits returns each of
    them with the same probability. *)
Definition gridDouble (k : Z) : double := {| mant := k; expo := -53 |}.

(** How many [k] below [n] satisfy [P]. *)
Fixpoint countBelow (P : Z -> bool) (n : nat) : Z :=
  match n with
  | O => 0%Z
  | S m => (countBelow P m + (if P (Z.of_nat m) then 1 else 0))%Z
  end.

(** How many of the [2 ^ 53] doubles of the grid select the entry of index
    [i]: the probability of that entry, in units of [2 ^ -53]. *)
Definition gridCount (i : Z) : Z :=
  countBelow (fun k => (selectIndex (gridDouble k) =? i)%Z)
    (Z.to_nat (2 ^ 53)).

(** The first [k] of the grid whose index reaches [i]: the integer part of
    [i * 2 ^ 53 / 10] when the product rounds up to [i] there, the next one
    otherwise. *)
Definition gridThreshold (i : Z) : Z :=
  let s := (i * 2 ^ 53 / 10)%Z in
  if (i <=? selectIndex (gridDouble s))%Z then s else (s + 1)%Z.

(** * Facts *)

(** ** Character classes *)

Lemma slugChar_intro (c : N) :
  notWordOrHyphen c = false -> isAsciiUpper c = false -> isSlugChar c = true.
Proof. intros H1 H2. class_arith. lia. Qed.

Lemma slugChar_not_space (c : N) : isSlugChar c = true -> isWhiteSpace c = false.
Proof. intros H. class_arith. lia. Qed.

Lemma slugChar_word_or_hyphen (c : N) :
  isSlugChar c = true -> isWordChar c = true \/ c = hyphen.
Proof. intros H. class_arith. lia. Qed.

Lemma slugChar_kept (c : N) : isSlugChar c = true -> notWordOrHyphen c = false.
Proof. intros H. class_arith. lia. Qed.

Lemma slugChar_not_upper (c : N) : isSlugChar c = true -> isAsciiUpper c = false.
Proof. intros H. class_arith. lia. Qed.

Lemma slugChar_ascii (c : N) : isSlugChar c = true -> (c < 128)%N.
Proof. intros H. class_arith. lia. Qed.

Lemma lowerAscii_fixes (c : N) : isAsciiUpper c = false -> lowerAscii c = c.
Proof. intros H. unfold lowerAscii. now rewrite H. Qed.

Lemma lowerAscii_not_upper (c : N) : isAsciiUpper (lowerAscii c) = false.
Proof.
  unfold lowerAscii. destruct (isAsciiUpper c) eqn:E; [|exact E].
  class_arith. lia.
Qed.

(** ** Regular-expression replacement *)

Lemma replaceRuns_In (cls : N -> bool) (rep : jsstring) (c : N) :
  forall (s : jsstring) (inRun : bool),
    In c (replaceRuns cls rep inRun s) ->
    In c rep \/ (In c s /\ cls c = false).
Proof.
  induction s as [|a s IH]; intros inRun H; simpl in H.
  - contradiction.
  - destruct (cls a) eqn:Ea.
    + destruct inRun.
      * destruct (IH _ H) as [Hr | [Hs Hc]]; [now left | right; split; simpl; auto].
      * apply in_app_or in H. destruct H as [H | H]; [now left|].
        destruct (IH _ H) as [Hr | [Hs Hc]]; [now left | right; split; simpl; auto].
    + destruct H as [<- | H].
      * right. split; simpl; auto.
      * destruct (IH _ H) as [Hr | [Hs Hc]]; [now left | right; split; simpl; auto].
Qed.

Lemma replaceRuns_none (cls : N -> bool) (rep : jsstring) :
  forall (s : jsstring) (inRun : bool),
    (forall c, In c s -> cls c = false) ->
    replaceRuns cls rep inRun s = s.
Proof.
  induction s as [|a s IH]; intros inRun H; simpl.
  - reflexivity.
  - rewrite (H a) by (simpl; auto).
    f_equal. apply IH. intros c Hc. apply H. simpl; auto.
Qed.

(** Replacing by the empty string is filtering. *)
Lemma replaceRuns_empty_filter (cls : N -> bool) :
  forall (s : jsstring) (inRun : bool),
    replaceRuns cls [] inRun s = filter (fun c => negb (cls c)) s.
Proof.
  induction s as [|a s IH]; intros inRun; simpl.
  - reflexivity.
  - destruct (cls a); simpl.
    + destruct inRun; apply IH.
    + f_equal. apply IH.
Qed.

Lemma asciiToLowerCase_no_upper (s : jsstring) (c : N) :
  In c (asciiToLowerCase s) -> isAsciiUpper c = false.
Proof.
  unfold asciiToLowerCase. rewrite in_map_iff.
  intros [a [<- _]]. apply lowerAscii_not_upper.
Qed.

Lemma asciiToLowerCase_ascii (s : jsstring) :
  (forall c, In c s -> (c < 128)%N) -> asciiToLowerCase s = map lowerAscii s.
Proof. reflexivity. Qed.

(** ** The slug generator *)

Section SlugFacts.

Variable toLowerCase : jsstring -> jsstring.

(** Two facts of Unicode lowercasing, true of every version of the
    tables: no result holds an ASCII capital, and a string of ASCII code
    units is lowercased unit by unit. *)
Hypothesis toLowerCase_no_upper :
  forall s c, In c (toLowerCase s) -> isAsciiUpper c = false.
Hypothesis toLowerCase_ascii :
  forall s, (forall c, In c s -> (c < 128)%N) ->
            toLowerCase s = map lowerAscii s.

Lemma generateSlug_chars (T : jsstring) (c : N) :
  In c (generateSlug toLowerCase T) -> isSlugChar c = true.
Proof.
  unfold generateSlug, replaceAll. intros H.
  apply replaceRuns_In in H. destruct H as [[] | [H Hkeep]].
  apply slugChar_intro; [exact Hkeep|].
  apply replaceRuns_In in H. destruct H as [[<- | []] | [H _]].
  - reflexivity.
  - exact (toLowerCase_no_upper _ _ H).
Qed.

Lemma toLowerCase_slugChars (s : jsstring) :
  (forall c, In c s -> isSlugChar c = true) -> toLowerCase s = s.
Proof.
  intros H. rewrite toLowerCase_ascii.
  - rewrite <- (map_id s) at 2. apply map_ext_in.
    intros c Hc. apply lowerAscii_fixes, slugChar_not_upper, H, Hc.
  - intros c Hc. apply slugChar_ascii, H, Hc.
Qed.

Lemma generateSlug_fixes_slugs (s : jsstring) :
  (forall c, In c s -> isSlugChar c = true) ->
  generateSlug toLowerCase s = s.
Proof.
  intros H. unfold generateSlug, replaceAll.
  rewrite (toLowerCase_slugChars s H).
  rewrite (replaceRuns_none isWhiteSpace [hyphen] s false)
    by (intros c Hc; apply slugChar_not_space, H, Hc).
  apply replaceRuns_none. intros c Hc. apply slugChar_kept, H, Hc.
Qed.

(** C3.  For every title [T] the slug is lowercase (it holds no ASCII
    capital and lowercasing leaves it unchanged), holds no whitespace, holds
    only word characters and hyphens, and is a function of [T] alone: equal
    titles give equal slugs. *)
Theorem generateSlug_shape (T : jsstring) :
  let s := generateSlug toLowerCase T in
  ((forall c, In c s -> isAsciiUpper c = false) /\ toLowerCase s = s)
  /\ (forall c, In c s -> isWhiteSpace c = false)
  /\ (forall c, In c s -> isWordChar c = true \/ c = hyphen)
  /\ (forall T', T' = T -> generateSlug toLowerCase T' = s).
Proof.
  intros s. repeat split.
  - intros c Hc. apply slugChar_not_upper, (generateSlug_chars T), Hc.
  - apply toLowerCase_slugChars. intros c Hc. apply (generateSlug_chars T), Hc.
  - intros c Hc. apply slugChar_not_space, (generateSlug_chars T), Hc.
  - intros c Hc. apply slugChar_word_or_hyphen, (generateSlug_chars T), Hc.
  - intros T' ->. reflexivity.
Qed.

(** C9.  The slug generator is idempotent. *)
Theorem generateSlug_idempotent (T : jsstring) :
  generateSlug toLowerCase (generateSlug toLowerCase T)
  = generateSlug toLowerCase T.
Proof.
  apply generateSlug_fixes_slugs. intros c Hc.
  apply (generateSlug_chars T), Hc.
Qed.

End SlugFacts.

Lemma generateSlug_shape_witness :
  let s := generateSlug asciiToLowerCase (lit "JavaScript Example - 11/3/2026") in
  s = lit "javascript-example---1132026"
  /\ ((forall c, In c s -> isAsciiUpper c = false) /\ asciiToLowerCase s = s)
  /\ (forall c, In c s -> isWhiteSpace c = false)
  /\ (forall c, In c s -> isWordChar c = true \/ c = hyphen)
  /\ (forall T', T' = lit "JavaScript Example - 11/3/2026" ->
                 generateSlug asciiToLowerCase T' = s).
Proof.
  split; [reflexivity|].
  exact (generateSlug_shape asciiToLowerCase asciiToLowerCase_no_upper
           asciiToLowerCase_ascii (lit "JavaScript Example - 11/3/2026")).
Defined.

Lemma generateSlug_idempotent_witness :
  generateSlug asciiToLowerCase
    (generateSlug asciiToLowerCase (lit "  Hello   World -- _x Y!! "))
  = generateSlug asciiToLowerCase (lit "  Hello   World -- _x Y!! ")
  /\ generateSlug asciiToLowerCase (lit "  Hello   World -- _x Y!! ")
     = lit "-hello-world----_x-y-".
Proof.
  split; [|reflexivity].
  exact (generateSlug_idempotent asciiToLowerCase asciiToLowerCase_no_upper
           asciiToLowerCase_ascii (lit "  Hello   World -- _x Y!! ")).
Defined.

(** ** The explanation resolver *)

Lemma jsstring_eqb_eq (a b : jsstring) : jsstring_eqb a b = true <-> a = b.
Proof.
  unfold jsstring_eqb. destruct (list_eq_dec N.eq_dec a b); split;
    congruence.
Qed.

Lemma jsstring_eqb_neq (a b : jsstring) : jsstring_eqb a b = false <-> a <> b.
Proof.
  unfold jsstring_eqb. destruct (list_eq_dec N.eq_dec a b); split;
    congruence.
Qed.

Lemma lookupOwn_absent (A : Type) (key : jsstring) :
  forall members : list (jsstring * A),
    ~ In key (map fst members) -> lookupOwn key members = None.
Proof.
  induction members as [|[k v] rest IH]; intros H; simpl.
  - reflexivity.
  - rewrite IH by (intros Hin; apply H; simpl; auto).
    destruct (jsstring_eqb key k) eqn:E; [|reflexivity].
    apply jsstring_eqb_eq in E. exfalso. apply H. simpl; auto.
Qed.

(** The keys of the table are the prompts, in the same order. *)
Lemma explanationMapping_keys : map fst explanationMapping = promptList.
Proof. reflexivity. Qed.

(** The first half of C4: a prompt of the list resolves to the string the
    table pairs it with. *)
Lemma generateProblemExplanation_listed (P e : jsstring) :
  In (P, e) explanationMapping -> generateProblemExplanation P = PString e.
Proof.
  intros H. simpl in H.
  repeat (destruct H as [H | H]; [injection H as <- <-; reflexivity|]).
  contradiction.
Qed.

(** What holds of the second half of C4: a string that is neither a prompt
    of the list nor the name of a member of Object.prototype resolves to the
    fallback. *)
Lemma generateProblemExplanation_unlisted (P : jsstring) :
  ~ In P promptList -> ~ In P objectPrototypeNames ->
  generateProblemExplanation P = PString fallbackExplanation.
Proof.
  intros Hlist Hproto. unfold generateProblemExplanation, getProperty.
  rewrite lookupOwn_absent by (rewrite explanationMapping_keys; exact Hlist).
  destruct (existsb (jsstring_eqb P) objectPrototypeNames) eqn:E; [|reflexivity].
  apply existsb_exists in E. destruct E as [n [Hn E]].
  apply jsstring_eqb_eq in E. subst n. contradiction.
Qed.

(** C4, at the input ["constructor"]: the string is not in the prompt list,
    yet the resolver does not return the fallback string; it returns the
    member [constructor] that the table inherits from Object.prototype,
    which prints as a native function. *)
Theorem generateProblemExplanation_constructor :
  ~ In (lit "constructor") promptList
  /\ generateProblemExplanation (lit "constructor")
     = PInherited (lit "constructor")
  /\ generateProblemExplanation (lit "constructor")
     <> PString fallbackExplanation
  /\ propvalToString (generateProblemExplanation (lit "constructor"))
     = lit "function Object() { [native code] }".
Proof.
  split.
  - intros H. simpl in H.
    repeat (destruct H as [H | H]; [discriminate H|]). contradiction.
  - split; [reflexivity|]. split; [discriminate | reflexivity].
Qed.

(** Every prompt of the list has an own, non-empty explanation, which the
    resolver returns. *)
Lemma listed_prompt_explanation (p : jsstring) :
  In p promptList ->
  exists e : jsstring,
    lookupOwn p explanationMapping = Some e
    /\ e <> []
    /\ generateProblemExplanation p = PString e.
Proof.
  intros H. simpl in H.
  repeat (destruct H as [<- | H];
          [eexists; split; [reflexivity|];
           split; [discriminate | reflexivity]|]).
  contradiction.
Qed.

Lemma selectPrompt_listed (random : double) (p : jsstring) :
  selectPrompt random = Some p -> In p promptList.
Proof.
  unfold selectPrompt, promptAt.
  destruct (selectIndex random <? 0)%Z; [discriminate|].
  apply nth_error_In.
Qed.

(** C10.  Every prompt of the list, hence every prompt the selector can
    produce from a random value, is an own key of the explanation table with
    a non-empty string: the lookup is truthy, the resolver returns that
    string, and the fallback branch is not taken. *)
Theorem promptList_all_mapped (p : jsstring) :
  In p promptList \/ (exists random, selectPrompt random = Some p) ->
  exists e : jsstring,
    lookupOwn p explanationMapping = Some e
    /\ e <> []
    /\ getProperty explanationMapping p = Some (PString e)
    /\ truthy (PString e) = true
    /\ generateProblemExplanation p = PString e.
Proof.
  intros H.
  assert (Hin : In p promptList).
  { destruct H as [H | [random H]];
      [exact H | exact (selectPrompt_listed random p H)]. }
  clear H. simpl in Hin.
  repeat (destruct Hin as [<- | Hin];
          [eexists; split; [reflexivity|];
           split; [discriminate|];
           split; [reflexivity|];
           split; reflexivity|]).
  contradiction.
Qed.

Lemma promptList_all_mapped_witness :
  In (lit "Create a batch script to automate file backups.") promptList
  /\ selectPrompt (midCell 9)
     = Some (lit "Create a batch script to automate file backups.")
  /\ exists e : jsstring,
       lookupOwn (lit "Create a batch script to automate file backups.")
         explanationMapping = Some e
       /\ e <> []
       /\ getProperty explanationMapping
            (lit "Create a batch script to automate file backups.")
          = Some (PString e)
       /\ truthy (PString e) = true
       /\ generateProblemExplanation
            (lit "Create a batch script to automate file backups.")
          = PString e.
Proof.
  assert (Hin : In (lit "Create a batch script to automate file backups.")
                  promptList) by (simpl; tauto).
  split; [exact Hin|]. split; [reflexivity|].
  exact (promptList_all_mapped
           (lit "Create a batch script to automate file backups.")
           (or_introl Hin)).
Defined.

(** ** The random prompt selection *)

Local Open Scope Z_scope.

Lemma roundShift_lower (M d : Z) :
  0 <= M -> 0 <= d -> M / 2 ^ d <= roundShift M d.
Proof.
  intros HM Hd. unfold roundShift.
  destruct (Z.leb_spec d 0) as [Hd0 | Hd0].
  - assert (d = 0) as -> by lia. rewrite Z.pow_0_r, Z.div_1_r. lia.
  - rewrite Z.shiftr_div_pow2 by lia.
    destruct (_ <? _); [lia|]. destruct (_ <? _); [lia|].
    destruct (Z.even _); lia.
Qed.

Lemma roundShift_upper (M d : Z) :
  0 <= M -> 0 <= d -> roundShift M d * 2 ^ d <= M + 2 ^ d / 2.
Proof.
  intros HM Hd. unfold roundShift.
  destruct (Z.leb_spec d 0) as [Hd0 | Hd0].
  - assert (d = 0) as -> by lia. rewrite Z.pow_0_r.
    change (1 / 2) with 0. lia.
  - rewrite Z.shiftr_div_pow2, !Z.shiftl_mul_pow2 by lia.
    assert (HP : 2 ^ d = 2 * 2 ^ (d - 1)).
    { rewrite <- Z.pow_succ_r by lia. f_equal. lia. }
    assert (HH : 0 < 2 ^ (d - 1)) by (apply Z.pow_pos_nonneg; lia).
    set (H := 2 ^ (d - 1)) in *. rewrite HP.
    replace (2 * H / 2) with H by (rewrite Z.mul_comm, Z.div_mul; lia).
    pose proof (Z.div_mod M (2 * H) ltac:(lia)) as Hdm.
    pose proof (Z.mod_pos_bound M (2 * H) ltac:(lia)) as Hmod.
    set (q := M / (2 * H)) in *. set (r := M mod (2 * H)) in *.
    rewrite Z.mul_1_l.
    destruct (Z.ltb_spec (M - q * (2 * H)) H); [nia|].
    destruct (Z.ltb_spec H (M - q * (2 * H))); [nia|].
    destruct (Z.even q); nia.
Qed.

Lemma promptList_length : Z.of_nat (List.length promptList) = 10.
Proof. reflexivity. Qed.

(** The shape of the index: the rounded mantissa over a power of two. *)
Lemma selectIndex_unfold (r : double) :
  inUnitInterval r = true ->
  exists d : Z,
    0 <= d <= 4
    /\ mulInteger r 10 = {| mant := roundShift (mant r * 10) d; expo := expo r + d |}
    /\ selectIndex r = roundShift (mant r * 10) d / 2 ^ (- expo r - d).
Proof.
  unfold inUnitInterval. rewrite !andb_true_iff, !Z.leb_le, Z.ltb_lt.
  intros [[[Hm0 Hm1] He0] He1].
  exists (Z.max 0 (Z.log2 (mant r * 10) + 1 - 53)).
  assert (Hlog : Z.log2 (mant r * 10) < 57).
  { destruct (Z.eq_dec (mant r) 0) as [-> | Hnz]; [simpl; lia|].
    apply Z.log2_lt_pow2; [lia|].
    change (2 ^ 57) with (16 * 2 ^ 53). lia. }
  split; [lia|]. split; [reflexivity|].
  unfold selectIndex, mathFloor. rewrite promptList_length.
  unfold mulInteger. cbn [mant expo].
  set (d := Z.max 0 (Z.log2 (mant r * 10) + 1 - 53)) in *.
  destruct (Z.ltb_spec (expo r + d) 0); [|lia].
  rewrite Z.shiftr_div_pow2 by lia. f_equal. f_equal. lia.
Qed.

Lemma pow2_split (e d : Z) :
  0 <= d -> d <= - e -> 2 ^ (- e) = 2 ^ (- e - d) * 2 ^ d.
Proof. intros. rewrite <- Z.pow_add_r by lia. f_equal. lia. Qed.

Lemma pow2_small (d : Z) : 0 <= d <= 4 -> 0 < 2 ^ d /\ 2 ^ d / 2 <= 8.
Proof.
  intros H.
  assert (d = 0 \/ d = 1 \/ d = 2 \/ d = 3 \/ d = 4) as [-> | [-> | [-> | [-> | ->]]]]
    by lia; cbn; lia.
Qed.

(** Whenever the exact product reaches the integer [i], so does the index. *)
Lemma selectIndex_lower (r : double) (i : Z) :
  inUnitInterval r = true ->
  i * 2 ^ (- expo r) <= mant r * 10 ->
  i <= selectIndex r.
Proof.
  intros Hr Hi. destruct (selectIndex_unfold r Hr) as [d [Hd [_ ->]]].
  unfold inUnitInterval in Hr.
  rewrite !andb_true_iff, !Z.leb_le, Z.ltb_lt in Hr.
  destruct Hr as [[[Hm0 Hm1] He0] He1].
  rewrite (pow2_split (expo r) d) in Hi by lia.
  destruct (pow2_small d Hd) as [HP _].
  assert (HK : 0 < 2 ^ (- expo r - d)) by (apply Z.pow_pos_nonneg; lia).
  apply Z.div_le_lower_bound; [exact HK|].
  etransitivity; [|apply roundShift_lower; lia].
  apply Z.div_le_lower_bound; [exact HP|]. lia.
Qed.

(** Whenever the exact product stays [10 * 2 ^ -53] below [i + 1], the
    index does not exceed [i]. *)
Lemma selectIndex_upper (r : double) (i : Z) :
  inUnitInterval r = true ->
  mant r * 10 + 10 * 2 ^ (- expo r - 53) <= (i + 1) * 2 ^ (- expo r) ->
  selectIndex r <= i.
Proof.
  intros Hr Hi. destruct (selectIndex_unfold r Hr) as [d [Hd [_ ->]]].
  unfold inUnitInterval in Hr.
  rewrite !andb_true_iff, !Z.leb_le, Z.ltb_lt in Hr.
  destruct Hr as [[[Hm0 Hm1] He0] He1].
  rewrite (pow2_split (expo r) d) in Hi by lia.
  destruct (pow2_small d Hd) as [HP HP8].
  assert (HK : 0 < 2 ^ (- expo r - d)) by (apply Z.pow_pos_nonneg; lia).
  assert (Hk : 0 < 2 ^ (- expo r - 53)) by (apply Z.pow_pos_nonneg; lia).
  pose proof (roundShift_upper (mant r * 10) d ltac:(lia) ltac:(lia)) as HR.
  apply Z.lt_succ_r. apply Z.div_lt_upper_bound; [exact HK|].
  nia.
Qed.

Lemma selectIndex_bounds (r : double) :
  inUnitInterval r = true -> 0 <= selectIndex r <= 9.
Proof.
  intros Hr. split.
  - apply selectIndex_lower; [exact Hr|].
    unfold inUnitInterval in Hr.
    rewrite !andb_true_iff, !Z.leb_le, Z.ltb_lt in Hr. lia.
  - apply selectIndex_upper; [exact Hr|].
    unfold inUnitInterval in Hr.
    rewrite !andb_true_iff, !Z.leb_le, Z.ltb_lt in Hr.
    destruct Hr as [[[Hm0 Hm1] He0] He1].
    assert (Hk : 0 < 2 ^ (- expo r - 53)) by (apply Z.pow_pos_nonneg; lia).
    replace (2 ^ (- expo r)) with (2 ^ (- expo r - 53) * 2 ^ 53)
      by (rewrite <- Z.pow_add_r by lia; f_equal; lia).
    nia.
Qed.

Lemma Zpos_pow2 (e : Z) : 0 <= e -> Z.pos (Z.to_pos (2 ^ e)) = 2 ^ e.
Proof. intros H. apply Z2Pos.id. apply Z.pow_pos_nonneg; lia. Qed.

Lemma value_negative_expo (m e : Z) :
  e < 0 -> value {| mant := m; expo := e |} = m # Z.to_pos (2 ^ (- e)).
Proof.
  intros H. unfold value. cbn [mant expo].
  destruct (Z.ltb_spec e 0); [reflexivity | lia].
Qed.

Lemma inUnitInterval_bounds (r : double) :
  inUnitInterval r = true ->
  0 <= mant r < 2 ^ 53 /\ -1074 <= expo r <= -53.
Proof.
  unfold inUnitInterval. rewrite !andb_true_iff, !Z.leb_le, Z.ltb_lt. lia.
Qed.

(** The index is the integer part of the rounded product. *)
Lemma selectIndex_cell (r : double) (i : Z) :
  inUnitInterval r = true ->
  selectIndex r = i <->
  (inject_Z i <= value (mulInteger r (Z.of_nat (List.length promptList)))
   /\ value (mulInteger r (Z.of_nat (List.length promptList))) < inject_Z (i + 1))%Q.
Proof.
  intros Hr. rewrite promptList_length.
  destruct (selectIndex_unfold r Hr) as [d [Hd [-> ->]]].
  destruct (inUnitInterval_bounds r Hr) as [Hm He].
  rewrite value_negative_expo by lia.
  unfold Qle, Qlt. cbn [Qnum Qden inject_Z].
  replace (- (expo r + d)) with (- expo r - d) by lia.
  rewrite Zpos_pow2 by lia.
  assert (HK : 0 < 2 ^ (- expo r - d)) by (apply Z.pow_pos_nonneg; lia).
  set (K := 2 ^ (- expo r - d)) in *.
  set (R := roundShift (mant r * 10) d).
  rewrite !Z.mul_1_r. split.
  - intros <-.
    pose proof (Z.div_mod R K ltac:(lia)) as Hdm.
    pose proof (Z.mod_pos_bound R K HK) as Hmod. nia.
  - intros [H1 H2]. symmetry.
    apply (Z.div_unique R K i (R - K * i)); lia.
Qed.

Lemma selectIndex_inside (r : double) (i : Z) :
  inUnitInterval r = true ->
  (i # 10 <= value r /\ value r <= ((i + 1) # 10) - sliver)%Q ->
  selectIndex r = i.
Proof.
  intros Hr. destruct (inUnitInterval_bounds r Hr) as [Hm He].
  destruct r as [m e]. cbn [mant expo] in *.
  rewrite value_negative_expo by lia.
  unfold sliver, Qle, Qminus, Qplus, Qopp. cbn [Qnum Qden].
  rewrite Zpos_pow2 by lia.
  intros [H1 H2].
  assert (Hk : 0 < 2 ^ (- e - 53)) by (apply Z.pow_pos_nonneg; lia).
  assert (HP : 2 ^ (- e) = 2 ^ (- e - 53) * 2 ^ 53)
    by (rewrite <- Z.pow_add_r by lia; f_equal; lia).
  apply Z.le_antisymm.
  - apply selectIndex_upper; [exact Hr|]. cbn [mant expo].
    change (Z.pos (10 * 9007199254740992)) with (10 * 2 ^ 53) in H2.
    change (Z.pos 9007199254740992) with (2 ^ 53) in H2.
    change (Z.pos 10) with 10 in H2.
    set (P := 2 ^ (- e)) in *. set (k := 2 ^ (- e - 53)) in *.
    nia.
  - apply selectIndex_lower; [exact Hr|]. cbn [mant expo].
    change (Z.pos 10) with 10 in H1. lia.
Qed.

Lemma selectIndex_outside (r : double) (i : Z) :
  inUnitInterval r = true ->
  selectIndex r = i ->
  ((i # 10) - sliver < value r /\ value r < (i + 1) # 10)%Q.
Proof.
  intros Hr Hi. destruct (inUnitInterval_bounds r Hr) as [Hm He].
  destruct r as [m e]. cbn [mant expo] in *.
  rewrite value_negative_expo by lia.
  unfold sliver, Qlt, Qminus, Qplus, Qopp. cbn [Qnum Qden].
  rewrite Zpos_pow2 by lia.
  change (Z.pos (10 * 9007199254740992)) with (10 * 2 ^ 53).
  change (Z.pos 9007199254740992) with (2 ^ 53).
  change (Z.pos 10) with 10.
  assert (Hk : 0 < 2 ^ (- e - 53)) by (apply Z.pow_pos_nonneg; lia).
  assert (HP : 2 ^ (- e) = 2 ^ (- e - 53) * 2 ^ 53)
    by (rewrite <- Z.pow_add_r by lia; f_equal; lia).
  split.
  - destruct (Z.lt_ge_cases
                ((i * 2 ^ 53 + -1 * 10) * 2 ^ (- e)) (m * (10 * 2 ^ 53)))
      as [Hlt | Hge]; [exact Hlt | exfalso].
    assert (selectIndex {| mant := m; expo := e |} <= i - 1); [|lia].
    apply selectIndex_upper; [exact Hr|]. cbn [mant expo].
    set (P := 2 ^ (- e)) in *. set (k := 2 ^ (- e - 53)) in *. nia.
  - destruct (Z.lt_ge_cases (m * 10) ((i + 1) * 2 ^ (- e)))
      as [Hlt | Hge]; [exact Hlt | exfalso].
    assert (i + 1 <= selectIndex {| mant := m; expo := e |}); [|lia].
    apply selectIndex_lower; [exact Hr|]. cbn [mant expo]. lia.
Qed.

Lemma promptAt_defined (i : Z) :
  0 <= i <= 9 ->
  exists p, promptAt i = Some p /\ In p promptList
            /\ nth_error promptList (Z.to_nat i) = Some p.
Proof.
  intros H.
  assert (i = 0 \/ i = 1 \/ i = 2 \/ i = 3 \/ i = 4 \/ i = 5 \/ i = 6
          \/ i = 7 \/ i = 8 \/ i = 9)
    as [-> | [-> | [-> | [-> | [-> | [-> | [-> | [-> | [-> | ->]]]]]]]]]
    by lia;
    (eexists; split; [reflexivity|]; split; [|reflexivity]; simpl; tauto).
Qed.

Lemma promptList_reachable (p : jsstring) :
  In p promptList ->
  exists r, inUnitInterval r = true /\ selectPrompt r = Some p.
Proof.
  intros H. simpl in H.
  destruct H as [<- | H]; [exists (midCell 0); split; reflexivity|].
  destruct H as [<- | H]; [exists (midCell 1); split; reflexivity|].
  destruct H as [<- | H]; [exists (midCell 2); split; reflexivity|].
  destruct H as [<- | H]; [exists (midCell 3); split; reflexivity|].
  destruct H as [<- | H]; [exists (midCell 4); split; reflexivity|].
  destruct H as [<- | H]; [exists (midCell 5); split; reflexivity|].
  destruct H as [<- | H]; [exists (midCell 6); split; reflexivity|].
  destruct H as [<- | H]; [exists (midCell 7); split; reflexivity|].
  destruct H as [<- | H]; [exists (midCell 8); split; reflexivity|].
  destruct H as [<- | H]; [exists (midCell 9); split; reflexivity|].
  contradiction.
Qed.

(** *** The probabilities on the grid of 53 random bits *)

Lemma countBelow_ext (P Q : Z -> bool) (n : nat) :
  (forall k, 0 <= k < Z.of_nat n -> P k = Q k) ->
  countBelow P n = countBelow Q n.
Proof.
  induction n as [|n IH]; intros H; [reflexivity|].
  cbn [countBelow]. rewrite IH by (intros k Hk; apply H; lia).
  rewrite (H (Z.of_nat n)) by lia. reflexivity.
Qed.

Lemma countBelow_interval (lo hi : Z) (n : nat) :
  0 <= lo <= hi ->
  countBelow (fun k => (lo <=? k) && (k <? hi)) n
  = Z.min (Z.of_nat n) hi - Z.min (Z.of_nat n) lo.
Proof.
  intros H. induction n as [|n IH]; [cbn [countBelow]; lia|].
  cbn [countBelow]. rewrite IH.
  destruct (Z.leb_spec lo (Z.of_nat n)), (Z.ltb_spec (Z.of_nat n) hi);
    cbn [andb]; lia.
Qed.

Lemma gridDouble_unit (k : Z) :
  0 <= k < 2 ^ 53 -> inUnitInterval (gridDouble k) = true.
Proof.
  intros H. unfold inUnitInterval, gridDouble. cbn [mant expo].
  rewrite !andb_true_iff, !Z.leb_le, Z.ltb_lt. lia.
Qed.

(** Away from the one grid point next to [i * 2 ^ 53 / 10], exact arithmetic
    decides whether the index reaches [i]. *)
Lemma grid_above (i s k : Z) :
  0 <= k < 2 ^ 53 -> i * 2 ^ 53 <= 10 * (s + 1) -> s + 1 <= k ->
  i <= selectIndex (gridDouble k).
Proof.
  intros Hk Hs Hsk. apply selectIndex_lower; [apply gridDouble_unit, Hk|].
  cbn [mant expo gridDouble]. change (- -53) with 53. lia.
Qed.

Lemma grid_below (i s k : Z) :
  0 <= k < 2 ^ 53 -> 10 * s <= i * 2 ^ 53 -> k <= s - 1 ->
  selectIndex (gridDouble k) <= i - 1.
Proof.
  intros Hk Hs Hsk. apply selectIndex_upper; [apply gridDouble_unit, Hk|].
  cbn [mant expo gridDouble]. change (- -53 - 53) with 0.
  change (- -53) with 53. change (2 ^ 0) with 1. lia.
Qed.

Lemma gridThreshold_spec (i k : Z) :
  0 <= i <= 9 -> 0 <= k < 2 ^ 53 ->
  (i <= selectIndex (gridDouble k) <-> gridThreshold i <= k).
Proof.
  intros Hi Hk.
  assert (Hcases : forall s b,
             0 <= s < 2 ^ 53 ->
             10 * s <= i * 2 ^ 53 <= 10 * (s + 1) ->
             (b = s /\ i <= selectIndex (gridDouble s))
             \/ (b = s + 1 /\ selectIndex (gridDouble s) <= i - 1) ->
             (i <= selectIndex (gridDouble k) <-> b <= k)).
  { intros s b Hs Hb Hat.
    destruct (Z.lt_trichotomy k s) as [Hlt | [-> | Hgt]].
    - pose proof (grid_below i s k Hk (proj1 Hb) ltac:(lia)).
      destruct Hat as [[-> _] | [-> _]]; lia.
    - destruct Hat as [[-> H] | [-> H]]; lia.
    - pose proof (grid_above i s k Hk (proj2 Hb) ltac:(lia)).
      destruct Hat as [[-> _] | [-> _]]; lia. }
  assert (i = 0 \/ i = 1 \/ i = 2 \/ i = 3 \/ i = 4 \/ i = 5 \/ i = 6
          \/ i = 7 \/ i = 8 \/ i = 9)
    as [-> | [-> | [-> | [-> | [-> | [-> | [-> | [-> | [-> | ->]]]]]]]]]
    by lia.
  - apply (Hcases 0); [lia | lia | left; split; [reflexivity|]].
    vm_compute. discriminate.
  - apply (Hcases 900719925474099); [lia | lia | right; split; [reflexivity|]].
    vm_compute. discriminate.
  - apply (Hcases 1801439850948198); [lia | lia | right; split; [reflexivity|]].
    vm_compute. discriminate.
  - apply (Hcases 2702159776422297); [lia | lia | right; split; [reflexivity|]].
    vm_compute. discriminate.
  - apply (Hcases 3602879701896396); [lia | lia | right; split; [reflexivity|]].
    vm_compute. discriminate.
  - apply (Hcases 4503599627370496); [lia | lia | left; split; [reflexivity|]].
    vm_compute. discriminate.
  - apply (Hcases 5404319552844595); [lia | lia | left; split; [reflexivity|]].
    vm_compute. discriminate.
  - apply (Hcases 6305039478318694); [lia | lia | left; split; [reflexivity|]].
    vm_compute. discriminate.
  - apply (Hcases 7205759403792793); [lia | lia | right; split; [reflexivity|]].
    vm_compute. discriminate.
  - apply (Hcases 8106479329266892); [lia | lia | left; split; [reflexivity|]].
    vm_compute. discriminate.
Qed.

(** The entry of index [i] is selected by the grid points from its
    threshold up to the next one, the last cell ending with the grid. *)
Lemma gridCount_value (i : Z) :
  0 <= i <= 9 ->
  gridCount i
  = (if i =? 9 then 2 ^ 53 else gridThreshold (i + 1)) - gridThreshold i.
Proof.
  intros Hi. unfold gridCount.
  set (hi := if i =? 9 then 2 ^ 53 else gridThreshold (i + 1)).
  assert (Hn : Z.of_nat (Z.to_nat (2 ^ 53)) = 2 ^ 53)
    by (apply Z2Nat.id, Z.pow_nonneg; lia).
  set (n := Z.to_nat (2 ^ 53)) in *. clearbody n.
  assert (Hb : 0 <= gridThreshold i <= hi /\ hi <= 2 ^ 53).
  { subst hi.
    assert (i = 0 \/ i = 1 \/ i = 2 \/ i = 3 \/ i = 4 \/ i = 5 \/ i = 6
            \/ i = 7 \/ i = 8 \/ i = 9)
      as [-> | [-> | [-> | [-> | [-> | [-> | [-> | [-> | [-> | ->]]]]]]]]]
      by lia; vm_compute; repeat split; discriminate. }
  rewrite (countBelow_ext _
             (fun k => (gridThreshold i <=? k) && (k <? hi)) n).
  - rewrite countBelow_interval by lia. lia.
  - intros k Hk. rewrite Hn in Hk.
    pose proof (gridThreshold_spec i k Hi Hk) as Hlo.
    pose proof (selectIndex_bounds (gridDouble k) (gridDouble_unit k Hk)) as Hidx.
    assert (Hhi : i + 1 <= selectIndex (gridDouble k) <-> hi <= k).
    { subst hi. destruct (Z.eqb_spec i 9) as [-> | Hne]; [lia|].
      apply gridThreshold_spec; lia. }
    destruct (Z.eqb_spec (selectIndex (gridDouble k)) i) as [He | He];
      destruct (Z.leb_spec (gridThreshold i) k), (Z.ltb_spec k hi);
      cbn [andb]; try reflexivity; lia.
Qed.

Lemma gridCount_near_tenth (i : Z) :
  0 <= i <= 9 -> 900719925474098 <= gridCount i <= 900719925474100.
Proof.
  intros Hi. rewrite (gridCount_value i Hi).
  assert (i = 0 \/ i = 1 \/ i = 2 \/ i = 3 \/ i = 4 \/ i = 5 \/ i = 6
          \/ i = 7 \/ i = 8 \/ i = 9)
    as [-> | [-> | [-> | [-> | [-> | [-> | [-> | [-> | [-> | ->]]]]]]]]]
    by lia; vm_compute; split; discriminate.
Qed.

(** C8, as amended.  For every double [random] of [[0,1)]: the computed
    index is within the bounds of the list and the selector returns the
    element of the list at that index; entry [i] is returned exactly when the
    scaled value [random * length], as the doubles compute it, falls into the
    unit cell [[i, i+1)]; in terms of [random] itself, entry [i] is returned
    for every value of [[i/10, (i+1)/10 - 2^-53]] and only for values of
    [(i/10 - 2^-53, (i+1)/10)], the rounding of the product moving a cell
    boundary by less than [2^-53]; every entry of the list is returned for
    some random value; and of the [2 ^ 53] equally likely values of a random
    source of 53 bits each entry is selected by a tenth of them up to one
    value (between 900719925474098 and 900719925474100): the entries are
    equally likely up to the rounding of the product, within [2 ^ -52], not
    exactly. *)
Theorem selectPrompt_nearly_uniform (random : double) :
  inUnitInterval random = true ->
  (0 <= selectIndex random < Z.of_nat (List.length promptList))
  /\ (exists p, selectPrompt random = Some p /\ In p promptList
                /\ nth_error promptList (Z.to_nat (selectIndex random)) = Some p)
  /\ (forall i : Z,
        selectIndex random = i <->
        (inject_Z i
         <= value (mulInteger random (Z.of_nat (List.length promptList)))
         /\ value (mulInteger random (Z.of_nat (List.length promptList)))
            < inject_Z (i + 1))%Q)
  /\ (forall i : Z,
        (i # 10 <= value random /\ value random <= ((i + 1) # 10) - sliver)%Q ->
        selectIndex random = i)
  /\ (forall i : Z,
        selectIndex random = i ->
        ((i # 10) - sliver < value random /\ value random < (i + 1) # 10)%Q)
  /\ (forall p, In p promptList ->
        exists r, inUnitInterval r = true /\ selectPrompt r = Some p)
  /\ (forall i : Z,
        0 <= i < Z.of_nat (List.length promptList) ->
        900719925474098 <= gridCount i <= 900719925474100).
Proof.
  intros Hr. pose proof (selectIndex_bounds random Hr) as Hb.
  split; [rewrite promptList_length; lia|].
  split; [apply promptAt_defined, Hb|].
  split; [intros i; apply selectIndex_cell, Hr|].
  split; [intros i; apply selectIndex_inside, Hr|].
  split; [intros i; apply selectIndex_outside, Hr|].
  split; [exact promptList_reachable|].
  intros i Hi. rewrite promptList_length in Hi.
  apply gridCount_near_tenth. lia.
Qed.

Lemma selectPrompt_nearly_uniform_witness :
  inUnitInterval double_0_7 = true
  /\ selectPrompt double_0_7
     = Some (lit "Generate a JavaScript code snippet for async/await function handling.")
  /\ (0 <= selectIndex double_0_7 < 10).
Proof.
  split; [reflexivity|]. split; [reflexivity|].
  exact (proj1 (selectPrompt_nearly_uniform double_0_7 eq_refl)).
Defined.

(** C8, as stated, fails.  Let the random value be uniformly distributed
    over the [2 ^ 53] doubles [k * 2 ^ -53] of [[0,1)].  The entry of index 7
    is then selected by 900719925474100 of these values and the entry of
    index 8 by 900719925474098: the two entries are not returned with equal
    probability.  (The double [0.7] already belongs to entry 7, and the
    double just below [0.8] still does.) *)
Lemma selectPrompt_not_equiprobable :
  gridCount 7 = 900719925474100
  /\ gridCount 8 = 900719925474098
  /\ gridCount 7 <> gridCount 8
  /\ selectIndex (gridDouble 6305039478318694) = 7
  /\ selectIndex (gridDouble 7205759403792793) = 7.
Proof.
  assert (H7 : gridCount 7 = 900719925474100)
    by (rewrite gridCount_value by lia; vm_compute; reflexivity).
  assert (H8 : gridCount 8 = 900719925474098)
    by (rewrite gridCount_value by lia; vm_compute; reflexivity).
  split; [exact H7|]. split; [exact H8|].
  split; [rewrite H7, H8; discriminate|].
  split; vm_compute; reflexivity.
Qed.

Local Close Scope Z_scope.

(** ** The pipeline *)

(** A trace only grows, and the image step adds no document-create call. *)
Lemma uploadImageToSanity_steps (w : World) (imageUrl : jsstring)
    (t : list Event) :
  exists (v : jsvalue) (evs : list Event),
    uploadImageToSanity w imageUrl t = (Normal v, t ++ evs)
    /\ (forall doc, ~ In (EvCreate doc) evs)
    /\ (ImageAcquisitionFails w imageUrl -> v = VData JNull).
Proof.
  unfold uploadImageToSanity. unfold_async.
  destruct (httpGet w imageUrl) as [message | status bytes] eqn:Hget.
  - exists (VData JNull),
      [EvGet imageUrl;
       EvError (lit "Error uploading image to Sanity:")
         (NetworkFailure message)].
    rewrite <- !app_assoc. split; [reflexivity|]. split; [|reflexivity].
    intros doc [H | [H | []]]; discriminate H.
  - destruct ((200 <=? status)%Z && (status <? 300)%Z) eqn:Hst.
    + fold (uploadName w).
      destruct (assetsUpload w bytes (uploadName w)) as [response | message] eqn:Hup.
      * destruct (getMember (VData response) (lit "_id")) as [v | e] eqn:Hid.
        -- exists v, [EvGet imageUrl; EvUpload (lit "image") bytes (uploadName w)].
           rewrite <- !app_assoc. split; [reflexivity|]. split.
           ++ intros doc [H | [H | []]]; discriminate H.
           ++ intros Hfail. exfalso.
              apply andb_true_iff in Hst. rewrite Z.leb_le, Z.ltb_lt in Hst.
              destruct Hfail as [m Hm | st b Hb Hbad | st b m Hb Hok Hrej];
                rewrite Hget in *; try discriminate.
              ** injection Hb as <- <-. lia.
              ** injection Hb as <- <-. rewrite Hup in Hrej. discriminate.
        -- exists (VData JNull),
             [EvGet imageUrl; EvUpload (lit "image") bytes (uploadName w);
              EvError (lit "Error uploading image to Sanity:") e].
           rewrite <- !app_assoc. split; [reflexivity|]. split; [|reflexivity].
           intros doc [H | [H | [H | []]]]; discriminate H.
      * exists (VData JNull),
          [EvGet imageUrl; EvUpload (lit "image") bytes (uploadName w);
           EvError (lit "Error uploading image to Sanity:") (StoreError message)].
        rewrite <- !app_assoc. split; [reflexivity|]. split; [|reflexivity].
        intros doc [H | [H | [H | []]]]; discriminate H.
    + exists (VData JNull),
        [EvGet imageUrl;
         EvError (lit "Error uploading image to Sanity:") (BadStatus status)].
      rewrite <- !app_assoc. split; [reflexivity|]. split; [|reflexivity].
      intros doc [H | [H | []]]; discriminate H.
Qed.

(** What [createSanityPost] adds to the trace: it never throws; a document
    it creates is the assembled post for the value the image step settled
    with; and it does create one as soon as the title can be encoded. *)
Lemma createSanityPost_steps (toLowerCase : jsstring -> jsstring) (w : World)
    (title snippet : jsstring) (problemExplanation : propval)
    (t : list Event) :
  exists evs : list Event,
    createSanityPost toLowerCase w title snippet problemExplanation t
    = (Normal tt, t ++ evs)
    /\ (forall doc, In (EvCreate doc) evs ->
          exists encoded assetId,
            encodeURIComponent title = Some encoded
            /\ doc = postDocument w title (generateSlug toLowerCase title)
                       snippet problemExplanation assetId
            /\ (ImageAcquisitionFails w (PLACEHOLDER_IMAGE_API ++ encoded) ->
                assetId = VData JNull))
    /\ (forall encoded, encodeURIComponent title = Some encoded ->
          exists assetId,
            In (EvCreate
                  (postDocument w title (generateSlug toLowerCase title)
                     snippet problemExplanation assetId)) evs).
Proof.
  unfold createSanityPost. unfold_async.
  destruct (encodeURIComponent title) as [encoded|] eqn:Henc.
  - destruct (uploadImageToSanity_steps w (PLACEHOLDER_IMAGE_API ++ encoded) t)
      as [assetId [evs [Hrun [Hnone Hnull]]]].
    rewrite Hrun.
    set (doc0 := postDocument w title (generateSlug toLowerCase title)
                   snippet problemExplanation assetId).
    destruct (clientCreate w doc0) as [created | message].
    + exists (evs ++ [EvCreate doc0;
                      EvLog (lit "Snippet post saved to Sanity.") None]).
      split; [now rewrite <- !app_assoc|]. split.
      * intros doc Hin. apply in_app_or in Hin.
        destruct Hin as [Hin | [Hin | [Hin | []]]];
          [exfalso; exact (Hnone doc Hin) | | discriminate Hin].
        injection Hin as <-. exists encoded, assetId. auto.
      * intros enc' Henc'. injection Henc' as <-. exists assetId.
        apply in_or_app. right. simpl. auto.
    + exists (evs ++ [EvCreate doc0;
                      EvError (lit "Error saving snippet post to Sanity:")
                        (StoreError message)]).
      split; [now rewrite <- !app_assoc|]. split.
      * intros doc Hin. apply in_app_or in Hin.
        destruct Hin as [Hin | [Hin | [Hin | []]]];
          [exfalso; exact (Hnone doc Hin) | | discriminate Hin].
        injection Hin as <-. exists encoded, assetId. auto.
      * intros enc' Henc'. injection Henc' as <-. exists assetId.
        apply in_or_app. right. simpl. auto.
  - exists [EvError (lit "Error saving snippet post to Sanity:") URIError].
    split; [reflexivity|]. split.
    + intros doc [Hin | []]. discriminate Hin.
    + intros enc' Henc'. discriminate Henc'.
Qed.

(** The extraction of line 61 succeeds exactly on a body with the expected
    text field, and then yields the trimmed text. *)
Lemma snippetOf_expectedText (data : json) :
  snippetOf data
  = match expectedText data with
    | Some t => Normal (trim t)
    | None => Throw TypeError
    end.
Proof.
  unfold snippetOf, expectedText.
  destruct data as [| b | q | s | items | members]; try reflexivity.
  cbn [getMember].
  destruct (lookupOwn (lit "choices") members) as [choices|]; [|reflexivity].
  destruct choices as [| b | q | s | items | fields]; try reflexivity.
  - destruct s as [|c s]; reflexivity.
  - destruct items as [|first items]; [reflexivity|].
    cbn [getFirst firstChoice].
    destruct first as [| b | q | s | items' | fields]; try reflexivity.
    cbn [getMember].
    destruct (lookupOwn (lit "text") fields) as [[| b | q | s | i' | f']|];
      reflexivity.
  - cbn [getFirst firstChoice].
    destruct (lookupOwn (lit "0") fields) as [first|]; [|reflexivity].
    destruct first as [| b | q | s | items' | fields']; try reflexivity.
    cbn [getMember].
    destruct (lookupOwn (lit "text") fields') as [[| b | q | s | i' | f']|];
      reflexivity.
Qed.

(** A failed text generation ends the run after the completion call and one
    error line. *)
Lemma generateCodeSnippet_failure (toLowerCase : jsstring -> jsstring)
    (w : World) :
  TextGenerationFails (completionAnswer w) ->
  exists e : jserror,
    generateCodeSnippet toLowerCase w []
    = (Normal tt,
       [postEvent w; EvError (lit "Error generating snippet:") e]).
Proof.
  unfold completionAnswer, generateCodeSnippet, postEvent. unfold_async.
  cbv zeta. intros Hfail.
  inversion Hfail as [m Hm | st data Hst Hm | st data Htext Hm]; cbn [app].
  - eexists. reflexivity.
  - destruct (Z.leb_spec 200 st); [|eexists; reflexivity].
    destruct (Z.ltb_spec st 300); [lia | eexists; reflexivity].
  - destruct ((200 <=? st)%Z && (st <? 300)%Z); [|eexists; reflexivity].
    rewrite snippetOf_expectedText, Htext. eexists. reflexivity.
Qed.

(** Every document the run creates is the assembled post of the selected
    prompt and of the trimmed text of a successful completion. *)
Lemma generateCodeSnippet_creates (toLowerCase : jsstring -> jsstring)
    (w : World) (doc : Document) :
  In (EvCreate doc) (run (generateCodeSnippet toLowerCase w)) ->
  exists (p : jsstring) (status : Z) (data : json) (t encoded : jsstring)
         (assetId : jsvalue),
    selectPrompt (mathRandom w) = Some p
    /\ completionAnswer w = Response status data
    /\ (200 <= status < 300)%Z
    /\ expectedText data = Some t
    /\ encodeURIComponent (uniqueTitleOf w p) = Some encoded
    /\ doc = postDocument w (uniqueTitleOf w p)
               (generateSlug toLowerCase (uniqueTitleOf w p)) (trim t)
               (generateProblemExplanation p) assetId
    /\ (ImageAcquisitionFails w (PLACEHOLDER_IMAGE_API ++ encoded) ->
        assetId = VData JNull).
Proof.
  unfold run, completionAnswer, generateCodeSnippet. unfold_async.
  cbn [app].
  destruct (httpPost w OPENAI_API_URL
              (completionRequest (selectPrompt (mathRandom w)))
              (authorization w)) as [m | st data] eqn:Hpost.
  - cbn. intros [H | [H | []]]; discriminate H.
  - destruct ((200 <=? st)%Z && (st <? 300)%Z) eqn:Hst;
      [|cbn; intros [H | [H | []]]; discriminate H].
    rewrite snippetOf_expectedText.
    destruct (expectedText data) as [t|] eqn:Htext;
      [|cbn; intros [H | [H | []]]; discriminate H].
    destruct (selectPrompt (mathRandom w)) as [p|] eqn:Hsel;
      [|cbn; intros [H | [H | [H | []]]]; discriminate H].
    cbn [app].
    match goal with
    | |- context [createSanityPost ?l ?w ?ti ?sn ?ex ?t0] =>
        destruct (createSanityPost_steps l w ti sn ex t0)
          as [evs [Hrun [Hcreated _]]]; rewrite Hrun
    end.
    cbn. intros [H | [H | H]]; try discriminate H.
    destruct (Hcreated doc H) as [encoded [assetId [Henc [Hdoc Hnull]]]].
    apply andb_true_iff in Hst. rewrite Z.leb_le, Z.ltb_lt in Hst.
    exists p, st, data, t, encoded, assetId. auto 10.
Qed.

(** Conversely a run whose completion succeeds, with a title that can be
    encoded, does create a document. *)
Lemma generateCodeSnippet_success (toLowerCase : jsstring -> jsstring)
    (w : World) (p : jsstring) (status : Z) (data : json)
    (t encoded : jsstring) :
  selectPrompt (mathRandom w) = Some p ->
  completionAnswer w = Response status data ->
  (200 <= status < 300)%Z ->
  expectedText data = Some t ->
  encodeURIComponent (uniqueTitleOf w p) = Some encoded ->
  exists assetId : jsvalue,
    In (EvCreate
          (postDocument w (uniqueTitleOf w p)
             (generateSlug toLowerCase (uniqueTitleOf w p)) (trim t)
             (generateProblemExplanation p) assetId))
       (run (generateCodeSnippet toLowerCase w)).
Proof.
  unfold run, completionAnswer, generateCodeSnippet. unfold_async.
  intros Hsel Hpost Hst Htext Henc. cbn [app].
  rewrite Hsel in *. rewrite Hpost.
  destruct (Z.leb_spec 200 status); [|lia].
  destruct (Z.ltb_spec status 300); [|lia].
  cbn [andb]. rewrite snippetOf_expectedText, Htext. cbn [app].
  match goal with
  | |- context [createSanityPost ?l ?w ?ti ?sn ?ex ?t0] =>
      destruct (createSanityPost_steps l w ti sn ex t0)
        as [evs [Hrun [_ Hcreates]]]; rewrite Hrun
  end.
  destruct (Hcreates encoded Henc) as [assetId Hin].
  exists assetId. cbn. right. right. exact Hin.
Qed.

(** ** Trimming *)

Lemma trimStart_spec (s : jsstring) :
  exists pre : jsstring,
    s = pre ++ trimStart s
    /\ (forall c, In c pre -> isWhiteSpace c = true)
    /\ (forall c r, trimStart s = c :: r -> isWhiteSpace c = false).
Proof.
  induction s as [|a s [pre [Hs [Hpre Hhd]]]].
  - exists []. repeat split; [intros c [] | discriminate].
  - simpl. destruct (isWhiteSpace a) eqn:Ea.
    + exists (a :: pre). split; [simpl; now f_equal|]. split.
      * intros c [<- | Hc]; [exact Ea | exact (Hpre c Hc)].
      * exact Hhd.
    + exists []. split; [reflexivity|]. split; [intros c []|].
      intros c r Hcr. injection Hcr as <- _. exact Ea.
Qed.

(** [trim] removes a run of whitespace at either end, and nothing else:
    what is left neither starts nor ends with whitespace. *)
Lemma trim_spec (s : jsstring) :
  exists pre post : jsstring,
    s = pre ++ trim s ++ post
    /\ (forall c, In c pre -> isWhiteSpace c = true)
    /\ (forall c, In c post -> isWhiteSpace c = true)
    /\ (forall c r, trim s = c :: r -> isWhiteSpace c = false)
    /\ (forall r c, trim s = r ++ [c] -> isWhiteSpace c = false).
Proof.
  destruct (trimStart_spec s) as [pre [Hs [Hpre Hhd]]].
  destruct (trimStart_spec (rev (trimStart s))) as [revPost [Hr [Hpost Hlast]]].
  exists pre, (rev revPost). unfold trim, trimEnd.
  assert (Hmid : trimStart s = rev (trimStart (rev (trimStart s))) ++ rev revPost).
  { rewrite <- rev_app_distr, <- Hr, rev_involutive. reflexivity. }
  split; [rewrite <- Hmid; exact Hs|]. split; [exact Hpre|]. split.
  { intros c Hc. apply Hpost. apply in_rev. exact Hc. }
  split.
  - intros c r Hcr. apply (Hhd c (r ++ rev revPost)).
    rewrite Hmid, Hcr. reflexivity.
  - intros r c Hrc. apply (Hlast c (rev r)).
    rewrite <- (rev_involutive (trimStart (rev (trimStart s)))), Hrc.
    rewrite rev_app_distr. reflexivity.
Qed.

(** ** The claims on the pipeline *)

(** C1.  If the text-generation call fails (no response, a status outside
    200..299, or a body without the expected text field), the run consists of
    the completion call and one error line: the entry point returns
    normally, no document-create call occurs, and no image is fetched or
    uploaded either. *)
Theorem failed_generation_creates_nothing
    (toLowerCase : jsstring -> jsstring) (w : World) :
  TextGenerationFails (completionAnswer w) ->
  (forall doc, ~ In (EvCreate doc) (run (generateCodeSnippet toLowerCase w)))
  /\ (forall kind bytes filename,
        ~ In (EvUpload kind bytes filename)
            (run (generateCodeSnippet toLowerCase w)))
  /\ (forall url, ~ In (EvGet url) (run (generateCodeSnippet toLowerCase w)))
  /\ outcome (generateCodeSnippet toLowerCase w) = Normal tt
  /\ exists e : jserror,
       run (generateCodeSnippet toLowerCase w)
       = [postEvent w; EvError (lit "Error generating snippet:") e].
Proof.
  intros Hfail.
  destruct (generateCodeSnippet_failure toLowerCase w Hfail) as [e He].
  unfold run, outcome. rewrite He. cbn [fst snd].
  split; [intros doc [H | [H | []]]; discriminate H|].
  split; [intros k b f [H | [H | []]]; discriminate H|].
  split; [intros u [H | [H | []]]; discriminate H|].
  split; [reflexivity|]. exists e. reflexivity.
Qed.

Lemma failed_generation_creates_nothing_witness :
  TextGenerationFails (completionAnswer offlineWorld)
  /\ run (generateCodeSnippet asciiToLowerCase offlineWorld)
     = [postEvent offlineWorld;
        EvError (lit "Error generating snippet:")
          (NetworkFailure (lit "connect ECONNREFUSED"))]
  /\ forall doc,
       ~ In (EvCreate doc) (run (generateCodeSnippet asciiToLowerCase offlineWorld)).
Proof.
  split; [apply transport_error|]. split; [reflexivity|].
  exact (proj1 (failed_generation_creates_nothing asciiToLowerCase offlineWorld
                  (transport_error (lit "connect ECONNREFUSED")))).
Defined.

(** C2.  If the image fetch or the image upload fails, the image step
    returns null instead of throwing, [createSanityPost] still calls the
    store's create operation, and every document it passes there has a null
    image asset reference. *)
Theorem image_failure_degrades
    (toLowerCase : jsstring -> jsstring) (w : World)
    (title snippet : jsstring) (problemExplanation : propval)
    (encoded : jsstring) :
  encodeURIComponent title = Some encoded ->
  ImageAcquisitionFails w (PLACEHOLDER_IMAGE_API ++ encoded) ->
  (forall t,
     fst (uploadImageToSanity w (PLACEHOLDER_IMAGE_API ++ encoded) t)
     = Normal (VData JNull))
  /\ In (EvCreate
           (postDocument w title (generateSlug toLowerCase title) snippet
              problemExplanation (VData JNull)))
        (run (createSanityPost toLowerCase w title snippet problemExplanation))
  /\ (forall doc,
        In (EvCreate doc)
           (run (createSanityPost toLowerCase w title snippet
                   problemExplanation)) ->
        _ref (asset (mainImage doc)) = VData JNull).
Proof.
  intros Henc Hfail. split.
  - intros t.
    destruct (uploadImageToSanity_steps w (PLACEHOLDER_IMAGE_API ++ encoded) t)
      as [v [evs [Hrun [_ Hnull]]]].
    rewrite Hrun, (Hnull Hfail). reflexivity.
  - destruct (createSanityPost_steps toLowerCase w title snippet
                problemExplanation [])
      as [evs [Hrun [Hcreated Hcreates]]].
    unfold run. rewrite Hrun. cbn [snd app].
    assert (Hall : forall doc, In (EvCreate doc) evs ->
                     doc = postDocument w title
                             (generateSlug toLowerCase title) snippet
                             problemExplanation (VData JNull)).
    { intros doc Hin.
      destruct (Hcreated doc Hin) as [enc' [assetId [Henc' [-> Hnull]]]].
      rewrite Henc in Henc'. injection Henc' as <-.
      rewrite (Hnull Hfail). reflexivity. }
    split.
    + destruct (Hcreates encoded Henc) as [assetId Hin].
      rewrite <- (Hall _ Hin). exact Hin.
    + intros doc Hin. rewrite (Hall doc Hin). reflexivity.
Qed.

Lemma image_failure_degrades_witness :
  encodeURIComponent (lit "a Example - 11/3/2026")
  = Some (lit "a%20Example%20-%2011%2F3%2F2026")
  /\ ImageAcquisitionFails noImageWorld
       (PLACEHOLDER_IMAGE_API ++ lit "a%20Example%20-%2011%2F3%2F2026")
  /\ In (EvCreate samplePostNoImage)
        (run (createSanityPost asciiToLowerCase noImageWorld
                (lit "a Example - 11/3/2026") reverseSnippet
                (PString (lit "reverse a string"))))
  /\ _ref (asset (mainImage samplePostNoImage)) = VData JNull.
Proof.
  assert (Hfail : ImageAcquisitionFails noImageWorld
            (PLACEHOLDER_IMAGE_API ++ lit "a%20Example%20-%2011%2F3%2F2026")).
  { apply fetch_bad_status with (status := 404%Z) (bytes := []);
      [reflexivity | lia]. }
  split; [reflexivity|]. split; [exact Hfail|].
  pose proof (image_failure_degrades asciiToLowerCase noImageWorld
                (lit "a Example - 11/3/2026") reverseSnippet
                (PString (lit "reverse a string"))
                (lit "a%20Example%20-%2011%2F3%2F2026") eq_refl Hfail)
    as [_ [Hin Hall]].
  split; [exact Hin | exact (Hall _ Hin)].
Defined.

(** The sample run: completion call, log line, image fetch and upload,
    document create, log line. *)
Lemma sampleWorld_run :
  run (generateCodeSnippet asciiToLowerCase sampleWorld)
  = [ postEvent sampleWorld;
      EvLog (lit "Generated Snippet:") (Some reverseSnippet);
      EvGet (PLACEHOLDER_IMAGE_API ++ lit "a%20Example%20-%2011%2F3%2F2026");
      EvUpload (lit "image") [137; 80; 78; 71]%N
        (lit "code-snippet-0b8f6a52-5d0c-4c9e-9a63-2f6c1f0e7d11.png");
      EvCreate samplePost;
      EvLog (lit "Snippet post saved to Sanity.") None ].
Proof. reflexivity. Qed.

Lemma samplePost_created :
  In (EvCreate samplePost)
     (run (generateCodeSnippet asciiToLowerCase sampleWorld)).
Proof. rewrite sampleWorld_run. simpl. tauto. Qed.

(** C5.  Every document the run passes to the store's create operation has
    a body of exactly five blocks, in this order: the announcement text
    block, the greeting text block, the code block carrying the generated
    snippet with the language tag ["javascript"] whatever the snippet is, the
    explanation text block built around the resolved explanation string, and
    the closing text block. *)
Theorem created_body_template
    (toLowerCase : jsstring -> jsstring) (w : World) (doc : Document) :
  In (EvCreate doc) (run (generateCodeSnippet toLowerCase w)) ->
  exists (p snippet explanation : jsstring),
    selectPrompt (mathRandom w) = Some p
    /\ generatedSnippet w = Some snippet
    /\ generateProblemExplanation p = PString explanation
    /\ body doc
       = [ TextBlock (lit "block")
             [ {| span_type := lit "span"; text := announcementText |} ];
           TextBlock (lit "block")
             [ {| span_type := lit "span"; text := greetingText |} ];
           CodeBlock (lit "code") (lit "Code Snippet") snippet
             (lit "javascript");
           TextBlock (lit "block")
             [ {| span_type := lit "span";
                  text := pictoBrain ++ lit " What" ++ apostrophe
                          ++ lit "s happening here? This snippet demonstrates how to "
                          ++ explanation ++ lit "." |} ];
           TextBlock (lit "block")
             [ {| span_type := lit "span"; text := closingText |} ] ].
Proof.
  intros Hin.
  destruct (generateCodeSnippet_creates toLowerCase w doc Hin)
    as [p [st [data [t [enc [assetId [Hsel [Hans [Hst [Htext [_ [-> _]]]]]]]]]]]].
  destruct (listed_prompt_explanation p (selectPrompt_listed _ _ Hsel))
    as [e [_ [_ He]]].
  exists p, (trim t), e. split; [exact Hsel|]. split.
  - unfold generatedSnippet. rewrite Hans.
    destruct (Z.leb_spec 200 st); [|lia].
    destruct (Z.ltb_spec st 300); [|lia].
    cbn [andb]. rewrite Htext. reflexivity.
  - split; [exact He|].
    cbn [body postDocument]. unfold postBody, explanationText, textBlock.
    rewrite He. reflexivity.
Qed.

Lemma created_body_template_witness :
  In (EvCreate samplePost)
     (run (generateCodeSnippet asciiToLowerCase sampleWorld))
  /\ nth_error (body samplePost) 2
     = Some (CodeBlock (lit "code") (lit "Code Snippet") reverseSnippet
               (lit "javascript"))
  /\ exists (p snippet explanation : jsstring),
       selectPrompt (mathRandom sampleWorld) = Some p
       /\ generatedSnippet sampleWorld = Some snippet
       /\ generateProblemExplanation p = PString explanation
       /\ body samplePost
          = [ TextBlock (lit "block")
                [ {| span_type := lit "span"; text := announcementText |} ];
              TextBlock (lit "block")
                [ {| span_type := lit "span"; text := greetingText |} ];
              CodeBlock (lit "code") (lit "Code Snippet") snippet
                (lit "javascript");
              TextBlock (lit "block")
                [ {| span_type := lit "span";
                     text := pictoBrain ++ lit " What" ++ apostrophe
                             ++ lit "s happening here? This snippet demonstrates how to "
                             ++ explanation ++ lit "." |} ];
              TextBlock (lit "block")
                [ {| span_type := lit "span"; text := closingText |} ] ].
Proof.
  split; [exact samplePost_created|]. split; [reflexivity|].
  exact (created_body_template asciiToLowerCase sampleWorld samplePost
           samplePost_created).
Defined.

(** C6.  In every document passed to the store's create operation, by
    [createSanityPost] called on any title or by the whole run, the slug field
    is the slug generator applied to the title field of that same
    document. *)
Theorem created_slug_of_title
    (toLowerCase : jsstring -> jsstring) (w : World)
    (title0 snippet : jsstring) (problemExplanation : propval)
    (doc : Document) :
  In (EvCreate doc)
     (run (createSanityPost toLowerCase w title0 snippet problemExplanation))
  \/ In (EvCreate doc) (run (generateCodeSnippet toLowerCase w)) ->
  current (slug doc) = generateSlug toLowerCase (title doc).
Proof.
  intros [Hin | Hin].
  - destruct (createSanityPost_steps toLowerCase w title0 snippet
                problemExplanation [])
      as [evs [Hrun [Hcreated _]]].
    unfold run in Hin. rewrite Hrun in Hin. cbn [snd app] in Hin.
    destruct (Hcreated doc Hin) as [enc [assetId [_ [-> _]]]]. reflexivity.
  - destruct (generateCodeSnippet_creates toLowerCase w doc Hin)
      as [p [st [data [t [enc [assetId [_ [_ [_ [_ [_ [-> _]]]]]]]]]]]].
    reflexivity.
Qed.

Lemma created_slug_of_title_witness :
  In (EvCreate samplePost)
     (run (generateCodeSnippet asciiToLowerCase sampleWorld))
  /\ title samplePost = lit "a Example - 11/3/2026"
  /\ current (slug samplePost) = lit "a-example---1132026"
  /\ current (slug samplePost)
     = generateSlug asciiToLowerCase (title samplePost).
Proof.
  split; [exact samplePost_created|]. split; [reflexivity|].
  split; [reflexivity|].
  exact (created_slug_of_title asciiToLowerCase sampleWorld [] []
           (PString []) samplePost (or_intror samplePost_created)).
Defined.

(** C7.  In every document the run passes to the store's create operation,
    the code block is the third block and its code field is, code unit for
    code unit, the text returned by the text-generation call with the
    whitespace at its two ends removed and nothing else changed. *)
Theorem created_code_is_trimmed_text
    (toLowerCase : jsstring -> jsstring) (w : World) (doc : Document) :
  In (EvCreate doc) (run (generateCodeSnippet toLowerCase w)) ->
  exists (status : Z) (data : json) (returned code : jsstring),
    completionAnswer w = Response status data
    /\ expectedText data = Some returned
    /\ nth_error (body doc) 2
       = Some (CodeBlock (lit "code") (lit "Code Snippet") code
                 (lit "javascript"))
    /\ (forall ty ti c l, In (CodeBlock ty ti c l) (body doc) -> c = code)
    /\ code = trim returned
    /\ exists pre post : jsstring,
         returned = pre ++ code ++ post
         /\ (forall c, In c pre -> isWhiteSpace c = true)
         /\ (forall c, In c post -> isWhiteSpace c = true)
         /\ (forall c r, code = c :: r -> isWhiteSpace c = false)
         /\ (forall r c, code = r ++ [c] -> isWhiteSpace c = false).
Proof.
  intros Hin.
  destruct (generateCodeSnippet_creates toLowerCase w doc Hin)
    as [p [st [data [t [enc [assetId [_ [Hans [_ [Htext [_ [-> _]]]]]]]]]]]].
  exists st, data, t, (trim t).
  split; [exact Hans|]. split; [exact Htext|]. split; [reflexivity|].
  split.
  - cbn [body postDocument]. unfold postBody, textBlock.
    intros ty ti c l [H | [H | [H | [H | [H | []]]]]]; try discriminate H.
    injection H as _ _ <- _. reflexivity.
  - split; [reflexivity | apply trim_spec].
Qed.

Lemma created_code_is_trimmed_text_witness :
  In (EvCreate samplePost)
     (run (generateCodeSnippet asciiToLowerCase sampleWorld))
  /\ expectedText sampleCompletion
     = Some ([10; 10]%N ++ reverseSnippet ++ [10]%N)
  /\ exists (status : Z) (data : json) (returned code : jsstring),
       completionAnswer sampleWorld = Response status data
       /\ expectedText data = Some returned
       /\ nth_error (body samplePost) 2
          = Some (CodeBlock (lit "code") (lit "Code Snippet") code
                    (lit "javascript"))
       /\ (forall ty ti c l,
             In (CodeBlock ty ti c l) (body samplePost) -> c = code)
       /\ code = trim returned
       /\ exists pre post : jsstring,
            returned = pre ++ code ++ post
            /\ (forall c, In c pre -> isWhiteSpace c = true)
            /\ (forall c, In c post -> isWhiteSpace c = true)
            /\ (forall c r, code = c :: r -> isWhiteSpace c = false)
            /\ (forall r c, code = r ++ [c] -> isWhiteSpace c = false).
Proof.
  split; [exact samplePost_created|]. split; [reflexivity|].
  exact (created_code_is_trimmed_text asciiToLowerCase sampleWorld samplePost
           samplePost_created).
Defined.

(** ** Further checks of the model *)

(** Bodies without the expected text field: not an object, no choices, an
    empty choices array, a choice without text, a text that is no string. *)
Example expectedText_malformed :
  expectedText (JString (lit "Bad Gateway")) = None
  /\ expectedText (JObject [ (lit "error", JString (lit "quota")) ]) = None
  /\ expectedText (JObject [ (lit "choices", JArray []) ]) = None
  /\ expectedText (JObject [ (lit "choices", JArray [ JObject [] ]) ]) = None
  /\ expectedText
       (JObject [ (lit "choices", JArray [ JObject [ (lit "text", JNull) ] ]) ])
     = None.
Proof. repeat split. Qed.

(** The run of the world whose image host answers 404: the document is
    created all the same, with a null image reference. *)
Example noImageWorld_run :
  run (generateCodeSnippet asciiToLowerCase noImageWorld)
  = [ postEvent noImageWorld;
      EvLog (lit "Generated Snippet:") (Some reverseSnippet);
      EvGet (PLACEHOLDER_IMAGE_API ++ lit "a%20Example%20-%2011%2F3%2F2026");
      EvError (lit "Error uploading image to Sanity:") (BadStatus 404);
      EvCreate samplePostNoImage;
      EvLog (lit "Snippet post saved to Sanity.") None ].
Proof. reflexivity. Qed.

(** On the whole run: when the completion succeeds and the image step
    fails, a document is created and every created document has a null image
    reference. *)
Lemma run_image_failure (toLowerCase : jsstring -> jsstring) (w : World)
    (p : jsstring) (status : Z) (data : json) (t encoded : jsstring) :
  selectPrompt (mathRandom w) = Some p ->
  completionAnswer w = Response status data ->
  (200 <= status < 300)%Z ->
  expectedText data = Some t ->
  encodeURIComponent (uniqueTitleOf w p) = Some encoded ->
  ImageAcquisitionFails w (PLACEHOLDER_IMAGE_API ++ encoded) ->
  (exists doc, In (EvCreate doc) (run (generateCodeSnippet toLowerCase w)))
  /\ (forall doc,
        In (EvCreate doc) (run (generateCodeSnippet toLowerCase w)) ->
        _ref (asset (mainImage doc)) = VData JNull).
Proof.
  intros Hsel Hans Hst Htext Henc Hfail. split.
  - destruct (generateCodeSnippet_success toLowerCase w p status data t
                encoded Hsel Hans Hst Htext Henc) as [assetId Hin].
    eexists. exact Hin.
  - intros doc Hin.
    destruct (generateCodeSnippet_creates toLowerCase w doc Hin)
      as [p' [st' [d' [t' [enc' [assetId [Hsel' [_ [_ [_ [Henc' [-> Hnull]]]]]]]]]]]].
    rewrite Hsel in Hsel'. injection Hsel' as <-.
    rewrite Henc in Henc'. injection Henc' as <-.
    rewrite (Hnull Hfail). reflexivity.
Qed.

(** [Math.floor(0.7 * 10)] is 7: the product [7 - 2 ^ -51] lies halfway
    between two doubles and rounds to the even one, 7, although the double
    [0.7] is below seven tenths: a cell boundary can move by the rounding of
    the product, by less than [2 ^ -53]. *)
Example double_0_7_rounds_up :
  inUnitInterval double_0_7 = true
  /\ (value double_0_7 < 7 # 10)%Q
  /\ mulInteger double_0_7 10 = {| mant := 7 * 2 ^ 50; expo := -50 |}
  /\ selectIndex double_0_7 = 7%Z.
Proof. repeat split. Qed.

(** The helpers on inputs whose JavaScript results are well known. *)
Example helpers_on_samples :
  generateSlug asciiToLowerCase (lit "JavaScript Example - 11/3/2026")
  = lit "javascript-example---1132026"
  /\ trim (lit "  let x = 1;  ") = lit "let x = 1;"
  /\ splitSpace (lit "Write a JavaScript function")
     = [lit "Write"; lit "a"; lit "JavaScript"; lit "function"]
  /\ encodeURIComponent (lit "a Example - 11/3/2026")
     = Some (lit "a%20Example%20-%2011%2F3%2F2026")
  /\ encodeURIComponent [55357]%N = None
  /\ generateProblemExplanation (lit "Write a haiku.")
     = PString fallbackExplanation
  /\ selectIndex {| mant := 0; expo := -1074 |} = 0%Z
  /\ selectIndex {| mant := 2 ^ 53 - 1; expo := -53 |} = 9%Z.
Proof. repeat split. Qed.

(** * Further properties of the pipeline *)

Local Open Scope nat_scope.

(** ** Composition of asynchronous code *)

Lemma framed_ret (A : Type) (a : A) : framed (ret a).
Proof. intros t. unfold ret. cbn. now rewrite app_nil_r. Qed.

Lemma framed_emit (ev : Event) : framed (emit ev).
Proof. intros t. reflexivity. Qed.

Lemma framed_liftC (A : Type) (c : completion A) : framed (liftC c).
Proof. intros t. unfold liftC. cbn. now rewrite app_nil_r. Qed.

Lemma framed_bind (A B : Type) (m : Async A) (k : A -> Async B) :
  framed m -> (forall a, framed (k a)) -> framed (bind m k).
Proof.
  intros Hm Hk t. unfold bind. rewrite (Hm t).
  destruct (m []) as [[a | e] t1] eqn:Em; cbn [fst snd].
  - rewrite (Hk a (t ++ t1)), (Hk a t1). cbn [fst snd].
    now rewrite app_assoc.
  - reflexivity.
Qed.

Lemma framed_tryCatch (A : Type) (m : Async A) (h : jserror -> Async A) :
  framed m -> (forall e, framed (h e)) -> framed (tryCatch m h).
Proof.
  intros Hm Hh t. unfold tryCatch. rewrite (Hm t).
  destruct (m []) as [[a | e] t1] eqn:Em; cbn [fst snd].
  - reflexivity.
  - rewrite (Hh e (t ++ t1)), (Hh e t1). cbn [fst snd].
    now rewrite app_assoc.
Qed.

Lemma framed_uploadImageToSanity (w : World) (imageUrl : jsstring) :
  framed (uploadImageToSanity w imageUrl).
Proof.
  unfold uploadImageToSanity.
  repeat first [ apply framed_tryCatch | apply framed_bind | apply framed_emit
               | apply framed_liftC | apply framed_ret | intro ].
Qed.

Lemma framed_createSanityPost (toLowerCase : jsstring -> jsstring)
    (w : World) (title snippet : jsstring) (problemExplanation : propval) :
  framed (createSanityPost toLowerCase w title snippet problemExplanation).
Proof.
  unfold createSanityPost.
  repeat first [ apply framed_tryCatch | apply framed_bind | apply framed_emit
               | apply framed_liftC | apply framed_ret
               | apply framed_uploadImageToSanity | intro ].
Qed.

Lemma framed_generateCodeSnippet (toLowerCase : jsstring -> jsstring)
    (w : World) :
  framed (generateCodeSnippet toLowerCase w).
Proof.
  unfold generateCodeSnippet.
  repeat first [ apply framed_tryCatch | apply framed_bind | apply framed_emit
               | apply framed_liftC | apply framed_ret
               | apply framed_createSanityPost | intro ].
Qed.

(** A [try] whose handler completes normally completes normally, whatever
    its body does. *)
Lemma neverThrows_tryCatch (A : Type) (m : Async A) (h : jserror -> Async A) :
  (forall e, neverThrows (h e)) -> neverThrows (tryCatch m h).
Proof.
  intros Hh t. unfold tryCatch.
  destruct (m t) as [[a | e] t1].
  - exists a, t1. reflexivity.
  - apply Hh.
Qed.

Lemma neverThrows_emit (ev : Event) : neverThrows (emit ev).
Proof. intros t. eexists. eexists. reflexivity. Qed.

Lemma neverThrows_uploadImageToSanity (w : World) (imageUrl : jsstring) :
  neverThrows (uploadImageToSanity w imageUrl).
Proof.
  apply neverThrows_tryCatch. intros e t.
  eexists. eexists. reflexivity.
Qed.

Lemma neverThrows_createSanityPost (toLowerCase : jsstring -> jsstring)
    (w : World) (title snippet : jsstring) (problemExplanation : propval) :
  neverThrows (createSanityPost toLowerCase w title snippet problemExplanation).
Proof. apply neverThrows_tryCatch. intros e. apply neverThrows_emit. Qed.

Lemma neverThrows_generateCodeSnippet (toLowerCase : jsstring -> jsstring)
    (w : World) :
  neverThrows (generateCodeSnippet toLowerCase w).
Proof. apply neverThrows_tryCatch. intros e. apply neverThrows_emit. Qed.

Lemma neverThrows_unit (m : Async unit) (t : list Event) :
  neverThrows m -> fst (m t) = Normal tt.
Proof. intros H. destruct (H t) as [[] [t' ->]]. reflexivity. Qed.

(** X1.  No function of the pipeline ever throws: the image step, the post
    creation, the entry point and the scheduled callback complete normally
    from every trace and in every world, whatever the services answer; so
    the promise the scheduler leaves unawaited never rejects. *)
Theorem pipeline_never_throws (toLowerCase : jsstring -> jsstring)
    (w : World) :
  (forall imageUrl t,
     exists v, fst (uploadImageToSanity w imageUrl t) = Normal v)
  /\ (forall title snippet problemExplanation t,
        fst (createSanityPost toLowerCase w title snippet problemExplanation t)
        = Normal tt)
  /\ (forall t, fst (generateCodeSnippet toLowerCase w t) = Normal tt)
  /\ (forall t, fst (cronCallback toLowerCase w t) = Normal tt).
Proof.
  split.
  { intros imageUrl t.
    destruct (neverThrows_uploadImageToSanity w imageUrl t) as [v [t' ->]].
    exists v. reflexivity. }
  split.
  { intros title snippet problemExplanation t.
    apply neverThrows_unit, neverThrows_createSanityPost. }
  split.
  { intros t. apply neverThrows_unit, neverThrows_generateCodeSnippet. }
  intros t. unfold cronCallback, bind, emit.
  apply neverThrows_unit, neverThrows_generateCodeSnippet.
Qed.

(** ** The exact trace of each function *)

Lemma okStatus_true (status : Z) :
  okStatus status = true <-> (200 <= status < 300)%Z.
Proof.
  unfold okStatus. rewrite andb_true_iff, Z.leb_le, Z.ltb_lt. tauto.
Qed.

(** The image step from the empty trace, by the answers of the world. *)
Lemma uploadImageToSanity_cases (w : World) (imageUrl : jsstring) :
  uploadImageToSanity w imageUrl []
  = match httpGet w imageUrl with
    | NoResponse m =>
        (Normal (VData JNull),
         [EvGet imageUrl;
          EvError (lit "Error uploading image to Sanity:") (NetworkFailure m)])
    | Response status bytes =>
        if okStatus status then
          match assetsUpload w bytes (uploadName w) with
          | Rejected m =>
              (Normal (VData JNull),
               [EvGet imageUrl; EvUpload (lit "image") bytes (uploadName w);
                EvError (lit "Error uploading image to Sanity:") (StoreError m)])
          | Resolved response =>
              match getMember (VData response) (lit "_id") with
              | Normal v =>
                  (Normal v,
                   [EvGet imageUrl; EvUpload (lit "image") bytes (uploadName w)])
              | Throw e =>
                  (Normal (VData JNull),
                   [EvGet imageUrl; EvUpload (lit "image") bytes (uploadName w);
                    EvError (lit "Error uploading image to Sanity:") e])
              end
          end
        else
          (Normal (VData JNull),
           [EvGet imageUrl;
            EvError (lit "Error uploading image to Sanity:") (BadStatus status)])
    end.
Proof.
  unfold uploadImageToSanity, okStatus. unfold_async. cbv zeta.
  fold (uploadName w).
  destruct (httpGet w imageUrl) as [m | status bytes]; [reflexivity|].
  destruct ((200 <=? status)%Z && (status <? 300)%Z); [|reflexivity].
  destruct (assetsUpload w bytes (uploadName w)) as [response | m];
    [|reflexivity].
  destruct (getMember (VData response) (lit "_id")); reflexivity.
Qed.

Lemma uploadImageToSanity_assetOf (w : World) (imageUrl : jsstring) :
  uploadImageToSanity w imageUrl []
  = (Normal (assetOf w imageUrl), run (uploadImageToSanity w imageUrl)).
Proof.
  unfold assetOf, outcome, run.
  destruct (neverThrows_uploadImageToSanity w imageUrl []) as [v [t' ->]].
  reflexivity.
Qed.

(** The trace of [createSanityPost] on a title that can be encoded. *)
Lemma createSanityPost_trace (toLowerCase : jsstring -> jsstring) (w : World)
    (title snippet : jsstring) (problemExplanation : propval)
    (encoded : jsstring) :
  encodeURIComponent title = Some encoded ->
  run (createSanityPost toLowerCase w title snippet problemExplanation)
  = run (uploadImageToSanity w (PLACEHOLDER_IMAGE_API ++ encoded))
    ++ [ EvCreate
           (postDocument w title (generateSlug toLowerCase title) snippet
              problemExplanation
              (assetOf w (PLACEHOLDER_IMAGE_API ++ encoded)));
         settledLine
           (clientCreate w
              (postDocument w title (generateSlug toLowerCase title) snippet
                 problemExplanation
                 (assetOf w (PLACEHOLDER_IMAGE_API ++ encoded)))) ].
Proof.
  intros Henc. unfold run at 1. unfold createSanityPost.
  unfold bind at 1 2, tryCatch at 1, liftC at 1. cbv zeta. rewrite Henc.
  rewrite uploadImageToSanity_assetOf.
  unfold bind, emit, liftC, storeSettle, settledLine.
  destruct (clientCreate w _) as [created | m]; cbn [fst snd];
    rewrite <- app_assoc; reflexivity.
Qed.

(** X2.  [createSanityPost] on a title that can be encoded: the events of the
    image step for the placeholder URL of that title, then exactly one
    create call, with the document assembled around the value the image step
    settled with, then one final line: the success line when the store
    resolved, the error line with the store's message when it rejected.
    Nothing is retried and nothing follows. *)
Theorem createSanityPost_run (toLowerCase : jsstring -> jsstring) (w : World)
    (title snippet : jsstring) (problemExplanation : propval)
    (encoded : jsstring) :
  encodeURIComponent title = Some encoded ->
  run (createSanityPost toLowerCase w title snippet problemExplanation)
  = run (uploadImageToSanity w (PLACEHOLDER_IMAGE_API ++ encoded))
    ++ [ EvCreate
           (postDocument w title (generateSlug toLowerCase title) snippet
              problemExplanation
              (assetOf w (PLACEHOLDER_IMAGE_API ++ encoded)));
         settledLine
           (clientCreate w
              (postDocument w title (generateSlug toLowerCase title) snippet
                 problemExplanation
                 (assetOf w (PLACEHOLDER_IMAGE_API ++ encoded)))) ].
Proof.
  apply createSanityPost_trace.
Qed.

Lemma createSanityPost_run_witness :
  encodeURIComponent (lit "a Example - 11/3/2026")
  = Some (lit "a%20Example%20-%2011%2F3%2F2026")
  /\ run (createSanityPost asciiToLowerCase sampleWorld
            (lit "a Example - 11/3/2026") reverseSnippet
            (PString (lit "reverse a string")))
     = [ EvGet (PLACEHOLDER_IMAGE_API ++ lit "a%20Example%20-%2011%2F3%2F2026");
         EvUpload (lit "image") [137; 80; 78; 71]%N
           (lit "code-snippet-0b8f6a52-5d0c-4c9e-9a63-2f6c1f0e7d11.png");
         EvCreate samplePost;
         EvLog (lit "Snippet post saved to Sanity.") None ].
Proof.
  split; [reflexivity|].
  exact (createSanityPost_run asciiToLowerCase sampleWorld
           (lit "a Example - 11/3/2026") reverseSnippet
           (PString (lit "reverse a string"))
           (lit "a%20Example%20-%2011%2F3%2F2026") eq_refl).
Defined.

(** [createSanityPost] from the empty trace, by whether the title can be
    encoded. *)
Lemma createSanityPost_cases (toLowerCase : jsstring -> jsstring) (w : World)
    (title snippet : jsstring) (problemExplanation : propval) :
  run (createSanityPost toLowerCase w title snippet problemExplanation)
  = match encodeURIComponent title with
    | None => [EvError (lit "Error saving snippet post to Sanity:") URIError]
    | Some encoded =>
        run (uploadImageToSanity w (PLACEHOLDER_IMAGE_API ++ encoded))
        ++ [ EvCreate
               (postDocument w title (generateSlug toLowerCase title) snippet
                  problemExplanation
                  (assetOf w (PLACEHOLDER_IMAGE_API ++ encoded)));
             settledLine
               (clientCreate w
                  (postDocument w title (generateSlug toLowerCase title)
                     snippet problemExplanation
                     (assetOf w (PLACEHOLDER_IMAGE_API ++ encoded)))) ]
    end.
Proof.
  destruct (encodeURIComponent title) as [encoded|] eqn:Henc.
  - apply createSanityPost_trace, Henc.
  - unfold run, createSanityPost. unfold_async. rewrite Henc. reflexivity.
Qed.

(** The entry point from the empty trace, by the answers of the world. *)
Lemma generateCodeSnippet_cases (toLowerCase : jsstring -> jsstring)
    (w : World) :
  run (generateCodeSnippet toLowerCase w)
  = postEvent w
    :: match completionAnswer w with
       | NoResponse m =>
           [EvError (lit "Error generating snippet:") (NetworkFailure m)]
       | Response status data =>
           if okStatus status then
             match expectedText data with
             | None => [EvError (lit "Error generating snippet:") TypeError]
             | Some t =>
                 EvLog (lit "Generated Snippet:") (Some (trim t))
                 :: match selectPrompt (mathRandom w) with
                    | None =>
                        [EvError (lit "Error generating snippet:") TypeError]
                    | Some p =>
                        run (createSanityPost toLowerCase w
                               (uniqueTitleOf w p) (trim t)
                               (generateProblemExplanation p))
                    end
             end
           else [EvError (lit "Error generating snippet:") (BadStatus status)]
       end.
Proof.
  unfold run at 1. unfold generateCodeSnippet, completionAnswer, postEvent,
    okStatus.
  unfold tryCatch at 1. unfold bind at 1 2 3 4 5. unfold emit at 1 2.
  unfold liftC at 1 2 3. unfold axiosSettle. cbv zeta. cbn [app].
  destruct (httpPost w OPENAI_API_URL
              (completionRequest (selectPrompt (mathRandom w)))
              (authorization w)) as [m | status data]; [reflexivity|].
  destruct ((200 <=? status)%Z && (status <? 300)%Z); [|reflexivity].
  rewrite snippetOf_expectedText.
  destruct (expectedText data) as [t|]; [|reflexivity].
  cbn [app].
  destruct (selectPrompt (mathRandom w)) as [p|]; [|reflexivity].
  rewrite (framed_createSanityPost toLowerCase w (uniqueTitleOf w p) (trim t)
             (generateProblemExplanation p)).
  destruct (neverThrows_createSanityPost toLowerCase w (uniqueTitleOf w p)
              (trim t) (generateProblemExplanation p) []) as [[] [t' Ht']].
  unfold run. rewrite Ht'. reflexivity.
Qed.

(** ** Counting the outbound calls *)

Lemma count_app (kind : Event -> bool) (a b : list Event) :
  count kind (a ++ b) = count kind a + count kind b.
Proof. unfold count. now rewrite filter_app, length_app. Qed.

Lemma count_zero_not_In (kind : Event -> bool) (t : list Event) (ev : Event) :
  count kind t = 0 -> kind ev = true -> ~ In ev t.
Proof.
  unfold count. intros Hc Hk Hin.
  assert (Hf : In ev (filter kind t)) by (apply filter_In; auto).
  destruct (filter kind t); [contradiction | discriminate].
Qed.

(** The image step: one fetch, at most one upload, nothing else outbound. *)
Lemma uploadImageToSanity_counts (w : World) (imageUrl : jsstring) :
  count isPost (run (uploadImageToSanity w imageUrl)) = 0
  /\ count isGet (run (uploadImageToSanity w imageUrl)) = 1
  /\ count isUpload (run (uploadImageToSanity w imageUrl)) <= 1
  /\ count isCreate (run (uploadImageToSanity w imageUrl)) = 0.
Proof.
  unfold run. rewrite uploadImageToSanity_cases.
  destruct (httpGet w imageUrl) as [m | status bytes]; [cbn; lia|].
  destruct (okStatus status); [|cbn; lia].
  destruct (assetsUpload w bytes (uploadName w)) as [response | m];
    [|cbn; lia].
  destruct (getMember (VData response) (lit "_id")); cbn; lia.
Qed.

Lemma createSanityPost_counts (toLowerCase : jsstring -> jsstring) (w : World)
    (title snippet : jsstring) (problemExplanation : propval) :
  let t := run (createSanityPost toLowerCase w title snippet
                  problemExplanation) in
  count isPost t = 0
  /\ count isGet t <= 1
  /\ count isUpload t <= count isGet t
  /\ count isCreate t = count isGet t.
Proof.
  cbv zeta. rewrite createSanityPost_cases.
  destruct (encodeURIComponent title) as [encoded|]; [|cbn; lia].
  destruct (uploadImageToSanity_counts w (PLACEHOLDER_IMAGE_API ++ encoded))
    as [Hp [Hg [Hu Hc]]].
  rewrite !count_app, Hp, Hg, Hc.
  set (u := count isUpload
              (run (uploadImageToSanity w (PLACEHOLDER_IMAGE_API ++ encoded))))
    in *.
  destruct (clientCreate w _); cbn; lia.
Qed.

(** The outbound calls of a run, counted. *)
Lemma generateCodeSnippet_counts (toLowerCase : jsstring -> jsstring) (w : World) :
  (exists rest, run (generateCodeSnippet toLowerCase w) = postEvent w :: rest)
  /\ count isPost (run (generateCodeSnippet toLowerCase w)) = 1
  /\ count isGet (run (generateCodeSnippet toLowerCase w)) <= 1
  /\ count isUpload (run (generateCodeSnippet toLowerCase w))
     <= count isGet (run (generateCodeSnippet toLowerCase w))
  /\ count isCreate (run (generateCodeSnippet toLowerCase w))
     = count isGet (run (generateCodeSnippet toLowerCase w)).
Proof.
  rewrite generateCodeSnippet_cases.
  split; [eexists; reflexivity|].
  destruct (completionAnswer w) as [m | status data]; [cbn; lia|].
  destruct (okStatus status); [|cbn; lia].
  destruct (expectedText data) as [t|]; [|cbn; lia].
  destruct (selectPrompt (mathRandom w)) as [p|]; [|cbn; lia].
  pose proof (createSanityPost_counts toLowerCase w (uniqueTitleOf w p)
                (trim t) (generateProblemExplanation p)) as H.
  cbv zeta in H. destruct H as [Hp [Hg [Hu Hc]]].
  set (rest := run (createSanityPost toLowerCase w (uniqueTitleOf w p)
                      (trim t) (generateProblemExplanation p))) in *.
  change (count isPost (postEvent w :: EvLog (lit "Generated Snippet:")
                          (Some (trim t)) :: rest))
    with (S (count isPost rest)).
  change (count isGet (postEvent w :: EvLog (lit "Generated Snippet:")
                         (Some (trim t)) :: rest))
    with (count isGet rest).
  change (count isUpload (postEvent w :: EvLog (lit "Generated Snippet:")
                            (Some (trim t)) :: rest))
    with (count isUpload rest).
  change (count isCreate (postEvent w :: EvLog (lit "Generated Snippet:")
                            (Some (trim t)) :: rest))
    with (count isCreate rest).
  lia.
Qed.

(** X3.  The outbound calls of a run: exactly one text-generation call,
    which is the first event (nothing is retried); at most one image fetch;
    an upload only in a run that fetched; and exactly as many create calls
    as fetches, so at most one document per run, created exactly when the
    run got as far as the image fetch. *)
Theorem run_call_counts (toLowerCase : jsstring -> jsstring) (w : World) :
  (exists rest, run (generateCodeSnippet toLowerCase w) = postEvent w :: rest)
  /\ count isPost (run (generateCodeSnippet toLowerCase w)) = 1
  /\ count isGet (run (generateCodeSnippet toLowerCase w)) <= 1
  /\ count isUpload (run (generateCodeSnippet toLowerCase w))
     <= count isGet (run (generateCodeSnippet toLowerCase w))
  /\ count isCreate (run (generateCodeSnippet toLowerCase w))
     = count isGet (run (generateCodeSnippet toLowerCase w)).
Proof.
  apply generateCodeSnippet_counts.
Qed.

(** ** Titles that cannot be encoded *)

Lemma surrogate_split (c : N) :
  isSurrogate c = isHighSurrogate c || isLowSurrogate c.
Proof.
  unfold isSurrogate, isHighSurrogate, isLowSurrogate, inRange.
  destruct (N.leb_spec 55296 c), (N.leb_spec c 57343), (N.leb_spec c 56319),
    (N.leb_spec 56320 c); cbn; try reflexivity; lia.
Qed.

Lemma unreserved_not_surrogate (c : N) :
  isUriUnreserved c = true -> isSurrogate c = false.
Proof.
  unfold isUriUnreserved, isSurrogate. cbn [existsb].
  intros H. class_arith. lia.
Qed.

Lemma encodeURIComponent_wellFormed (s : jsstring) :
  WellFormed s -> exists out, encodeURIComponent s = Some out.
Proof.
  induction 1 as [| c s Hc _ [out IH] | hi lo s Hhi Hlo _ [out IH]].
  - exists []. reflexivity.
  - rewrite surrogate_split in Hc. apply orb_false_iff in Hc.
    destruct Hc as [Hh Hl]. unfold isHighSurrogate in Hh.
    unfold isLowSurrogate in Hl. cbn [encodeURIComponent].
    rewrite IH, Hh, Hl. destruct (isUriUnreserved c); eexists; reflexivity.
  - assert (Hs : isSurrogate hi = true)
      by (rewrite surrogate_split, Hhi; reflexivity).
    assert (Hu : isUriUnreserved hi = false).
    { destruct (isUriUnreserved hi) eqn:E; [|reflexivity].
      apply unreserved_not_surrogate in E. congruence. }
    assert (Hl : isLowSurrogate hi = false).
    { unfold isHighSurrogate, isLowSurrogate, inRange in *.
      apply andb_true_iff in Hhi. rewrite !N.leb_le in Hhi.
      apply andb_false_iff. left. apply N.leb_gt. lia. }
    unfold isHighSurrogate in Hhi. unfold isLowSurrogate in Hl, Hlo.
    cbn [encodeURIComponent]. rewrite Hu, Hl, Hhi, Hlo, IH.
    eexists. reflexivity.
Qed.

Lemma encodeURIComponent_some_wellFormed (n : nat) :
  forall s out, List.length s <= n ->
                encodeURIComponent s = Some out -> WellFormed s.
Proof.
  induction n as [|n IH]; intros s out Hlen Henc.
  - destruct s; [constructor | cbn in Hlen; lia].
  - destruct s as [|c r]; [constructor|].
    cbn [encodeURIComponent] in Henc. cbn [List.length] in Hlen.
    destruct (isUriUnreserved c) eqn:Hu.
    + destruct (encodeURIComponent r) as [out'|] eqn:Hr; [|discriminate].
      apply wf_unit; [apply unreserved_not_surrogate, Hu|].
      apply (IH r out'); [lia | exact Hr].
    + destruct (inRange 56320 57343 c) eqn:Hl; [discriminate|].
      destruct (inRange 55296 56319 c) eqn:Hh.
      * destruct r as [|lo r']; [discriminate|].
        destruct (inRange 56320 57343 lo) eqn:Hlo; [|discriminate].
        destruct (encodeURIComponent r') as [out'|] eqn:Hr; [|discriminate].
        apply wf_pair; [exact Hh | exact Hlo|].
        apply (IH r' out'); [cbn [List.length] in Hlen; lia | exact Hr].
      * destruct (encodeURIComponent r) as [out'|] eqn:Hr; [|discriminate].
        apply wf_unit.
        -- rewrite surrogate_split. unfold isHighSurrogate, isLowSurrogate.
           rewrite Hh, Hl. reflexivity.
        -- apply (IH r out'); [lia | exact Hr].
Qed.

(** [encodeURIComponent] throws exactly on ill-formed UTF-16. *)
Lemma encodeURIComponent_defined (s : jsstring) :
  (exists out, encodeURIComponent s = Some out) <-> WellFormed s.
Proof.
  split.
  - intros [out H].
    exact (encodeURIComponent_some_wellFormed (List.length s) s out
             (le_n _) H).
  - apply encodeURIComponent_wellFormed.
Qed.

Lemma uploadImageToSanity_no_create (w : World) (imageUrl : jsstring)
    (doc : Document) :
  ~ In (EvCreate doc) (run (uploadImageToSanity w imageUrl)).
Proof.
  apply (count_zero_not_In isCreate); [|reflexivity].
  apply uploadImageToSanity_counts.
Qed.

(** A document is created exactly on a well-formed title. *)
Lemma createSanityPost_creates_iff (toLowerCase : jsstring -> jsstring)
    (w : World) (title snippet : jsstring) (problemExplanation : propval) :
  (exists doc,
     In (EvCreate doc)
        (run (createSanityPost toLowerCase w title snippet
                problemExplanation)))
  <-> WellFormed title.
Proof.
  rewrite createSanityPost_cases.
  destruct (encodeURIComponent title) as [encoded|] eqn:Henc.
  - assert (Hwf : WellFormed title)
      by (apply encodeURIComponent_defined; eexists; exact Henc).
    split; [intros _; exact Hwf|].
    intros _. eexists. apply in_or_app. right. left. reflexivity.
  - assert (Hwf : ~ WellFormed title).
    { intros H. apply encodeURIComponent_defined in H.
      destruct H as [out H]. congruence. }
    split; [|intros H; contradiction].
    intros [doc [H | []]]. discriminate H.
Qed.

(** X4.  [createSanityPost] passes a document to the store exactly when its
    title is well-formed UTF-16.  On a title with an unpaired surrogate the
    URIError of [encodeURIComponent] lands in the catch block before any
    network call: the whole trace is the one error line. *)
Theorem createSanityPost_creates_iff_wellFormed
    (toLowerCase : jsstring -> jsstring) (w : World)
    (title snippet : jsstring) (problemExplanation : propval) :
  ((exists doc,
      In (EvCreate doc)
         (run (createSanityPost toLowerCase w title snippet
                 problemExplanation)))
   <-> WellFormed title)
  /\ (~ WellFormed title ->
      run (createSanityPost toLowerCase w title snippet problemExplanation)
      = [EvError (lit "Error saving snippet post to Sanity:") URIError]).
Proof.
  split; [apply createSanityPost_creates_iff|].
  intros Hn. rewrite createSanityPost_cases.
  destruct (encodeURIComponent title) as [encoded|] eqn:Henc; [|reflexivity].
  exfalso. apply Hn, encodeURIComponent_defined. eexists. exact Henc.
Qed.

(** ** The image step inside a run *)

(** Where the run of the entry point gets to the post creation. *)
Lemma run_reaches_creation (toLowerCase : jsstring -> jsstring) (w : World)
    (ev : Event) :
  In ev (run (generateCodeSnippet toLowerCase w)) ->
  isGet ev || isUpload ev || isCreate ev = true ->
  exists p t,
    selectPrompt (mathRandom w) = Some p
    /\ generatedSnippet w = Some t
    /\ In ev (run (createSanityPost toLowerCase w (uniqueTitleOf w p) t
                     (generateProblemExplanation p))).
Proof.
  rewrite generateCodeSnippet_cases. unfold generatedSnippet.
  intros [<- | Hin] Hk; [discriminate Hk|].
  destruct (completionAnswer w) as [m | status data];
    [destruct Hin as [<- | []]; discriminate Hk|].
  change ((200 <=? status)%Z && (status <? 300)%Z) with (okStatus status).
  destruct (okStatus status);
    [|destruct Hin as [<- | []]; discriminate Hk].
  destruct (expectedText data) as [t|];
    [|destruct Hin as [<- | []]; discriminate Hk].
  destruct Hin as [<- | Hin]; [discriminate Hk|].
  destruct (selectPrompt (mathRandom w)) as [p|];
    [|destruct Hin as [<- | []]; discriminate Hk].
  exists p, (trim t). auto.
Qed.

Lemma creation_reaches_image_step (toLowerCase : jsstring -> jsstring)
    (w : World) (title snippet : jsstring) (problemExplanation : propval)
    (ev : Event) :
  In ev (run (createSanityPost toLowerCase w title snippet
                problemExplanation)) ->
  isGet ev || isUpload ev = true ->
  exists encoded,
    encodeURIComponent title = Some encoded
    /\ In ev (run (uploadImageToSanity w (PLACEHOLDER_IMAGE_API ++ encoded))).
Proof.
  rewrite createSanityPost_cases.
  destruct (encodeURIComponent title) as [encoded|];
    [|intros [<- | []] Hk; discriminate Hk].
  intros Hin Hk. exists encoded. split; [reflexivity|].
  apply in_app_or in Hin. destruct Hin as [Hin | [<- | [<- | []]]].
  - exact Hin.
  - discriminate Hk.
  - destruct (clientCreate w _); discriminate Hk.
Qed.

(** A successful generation splits the run into its two opening events and
    the post creation. *)
Lemma run_success_split (toLowerCase : jsstring -> jsstring) (w : World)
    (p t : jsstring) :
  selectPrompt (mathRandom w) = Some p ->
  generatedSnippet w = Some t ->
  run (generateCodeSnippet toLowerCase w)
  = [postEvent w; EvLog (lit "Generated Snippet:") (Some t)]
    ++ run (createSanityPost toLowerCase w (uniqueTitleOf w p) t
              (generateProblemExplanation p)).
Proof.
  intros Hsel Hsnip. rewrite generateCodeSnippet_cases.
  unfold generatedSnippet in Hsnip.
  destruct (completionAnswer w) as [m | status data]; [discriminate|].
  change ((200 <=? status)%Z && (status <? 300)%Z) with (okStatus status)
    in Hsnip.
  destruct (okStatus status); [|discriminate].
  destruct (expectedText data) as [t'|]; [|discriminate].
  injection Hsnip as <-. rewrite Hsel. reflexivity.
Qed.

Lemma settledLine_not_outbound (r : storeResult) :
  isGet (settledLine r) = false /\ isUpload (settledLine r) = false.
Proof. destruct r; split; reflexivity. Qed.

(** An upload of the image step stands right after the fetch of that step,
    whose answer it carries; nothing else of the step is a fetch or an
    upload. *)
Lemma uploadImageToSanity_upload_shape (w : World) (imageUrl : jsstring)
    (kind : jsstring) (bytes : list N) (filename : jsstring) :
  In (EvUpload kind bytes filename) (run (uploadImageToSanity w imageUrl)) ->
  exists status rest,
    httpGet w imageUrl = Response status bytes
    /\ okStatus status = true
    /\ kind = lit "image"
    /\ filename = uploadName w
    /\ run (uploadImageToSanity w imageUrl)
       = EvGet imageUrl :: EvUpload kind bytes filename :: rest
    /\ count isGet rest = 0
    /\ count isUpload rest = 0.
Proof.
  unfold run. rewrite uploadImageToSanity_cases.
  destruct (httpGet w imageUrl) as [m | status b].
  { intros [H | [H | []]]; discriminate H. }
  destruct (okStatus status) eqn:Hok;
    [|intros [H | [H | []]]; discriminate H].
  intros Hu. exists status.
  destruct (assetsUpload w b (uploadName w)) as [response | m].
  - destruct (getMember (VData response) (lit "_id")).
    + destruct Hu as [H | [H | []]]; [discriminate H|].
      injection H as <- <- <-. exists []. repeat split; try reflexivity; exact Hok.
    + destruct Hu as [H | [H | [H | []]]];
        [discriminate H | | discriminate H].
      injection H as <- <- <-. eexists. repeat split; try reflexivity; exact Hok.
  - destruct Hu as [H | [H | [H | []]]];
      [discriminate H | | discriminate H].
    injection H as <- <- <-. eexists. repeat split; try reflexivity; exact Hok.
Qed.

(** X5.  Whatever a run uploads is what it fetched, and it uploads it after
    fetching it: an upload happens only after the image fetch of the same
    run answered with a status of 200..299, it carries exactly the bytes of
    that answer, as kind ["image"], under the name
    [code-snippet-<uuid>.png]; in the trace of the run the fetch comes
    first and the upload is the very next event, and the run holds no other
    fetch and no other upload, neither before the two nor after them. *)
Theorem upload_carries_fetched_bytes (toLowerCase : jsstring -> jsstring)
    (w : World) (kind : jsstring) (bytes : list N) (filename : jsstring) :
  In (EvUpload kind bytes filename) (run (generateCodeSnippet toLowerCase w)) ->
  exists imageUrl status,
    In (EvGet imageUrl) (run (generateCodeSnippet toLowerCase w))
    /\ httpGet w imageUrl = Response status bytes
    /\ (200 <= status < 300)%Z
    /\ kind = lit "image"
    /\ filename = lit "code-snippet-" ++ uuidv4 w ++ lit ".png"
    /\ exists before after,
         run (generateCodeSnippet toLowerCase w)
         = before ++ EvGet imageUrl :: EvUpload kind bytes filename :: after
         /\ count isGet before = 0 /\ count isUpload before = 0
         /\ count isGet after = 0 /\ count isUpload after = 0.
Proof.
  intros Hin.
  destruct (run_reaches_creation toLowerCase w _ Hin eq_refl)
    as [p [t [Hsel [Hsnip Hc]]]].
  destruct (creation_reaches_image_step toLowerCase w _ _ _ _ Hc eq_refl)
    as [encoded [Henc Hu]].
  destruct (uploadImageToSanity_upload_shape w _ _ _ _ Hu)
    as [status [rest [Hg [Hok [Hkind [Hname [Hrun [Hcg Hcu]]]]]]]].
  assert (Hsplit :
            run (generateCodeSnippet toLowerCase w)
            = [postEvent w; EvLog (lit "Generated Snippet:") (Some t)]
              ++ EvGet (PLACEHOLDER_IMAGE_API ++ encoded)
                 :: EvUpload kind bytes filename
                 :: (rest
                     ++ [ EvCreate
                            (postDocument w (uniqueTitleOf w p)
                               (generateSlug toLowerCase (uniqueTitleOf w p)) t
                               (generateProblemExplanation p)
                               (assetOf w (PLACEHOLDER_IMAGE_API ++ encoded)));
                          settledLine
                            (clientCreate w
                               (postDocument w (uniqueTitleOf w p)
                                  (generateSlug toLowerCase (uniqueTitleOf w p))
                                  t (generateProblemExplanation p)
                                  (assetOf w
                                     (PLACEHOLDER_IMAGE_API ++ encoded)))) ])).
  { rewrite (run_success_split toLowerCase w p t Hsel Hsnip).
    rewrite createSanityPost_cases, Henc, Hrun. reflexivity. }
  exists (PLACEHOLDER_IMAGE_API ++ encoded), status.
  split; [rewrite Hsplit; right; right; left; reflexivity|].
  split; [exact Hg|]. split; [apply okStatus_true, Hok|].
  split; [exact Hkind|]. split; [exact Hname|].
  eexists. eexists. split; [exact Hsplit|].
  split; [reflexivity|]. split; [reflexivity|].
  rewrite !count_app, Hcg, Hcu. unfold count. cbn [filter isGet isUpload].
  destruct (settledLine_not_outbound
              (clientCreate w
                 (postDocument w (uniqueTitleOf w p)
                    (generateSlug toLowerCase (uniqueTitleOf w p)) t
                    (generateProblemExplanation p)
                    (assetOf w (PLACEHOLDER_IMAGE_API ++ encoded)))))
    as [-> ->].
  split; reflexivity.
Qed.

Lemma upload_carries_fetched_bytes_witness :
  In (EvUpload (lit "image") [137; 80; 78; 71]%N
        (lit "code-snippet-0b8f6a52-5d0c-4c9e-9a63-2f6c1f0e7d11.png"))
     (run (generateCodeSnippet asciiToLowerCase sampleWorld))
  /\ exists imageUrl status,
       In (EvGet imageUrl) (run (generateCodeSnippet asciiToLowerCase sampleWorld))
       /\ httpGet sampleWorld imageUrl = Response status [137; 80; 78; 71]%N
       /\ (200 <= status < 300)%Z
       /\ lit "image" = lit "image"
       /\ lit "code-snippet-0b8f6a52-5d0c-4c9e-9a63-2f6c1f0e7d11.png"
          = lit "code-snippet-" ++ uuidv4 sampleWorld ++ lit ".png"
       /\ exists before after,
            run (generateCodeSnippet asciiToLowerCase sampleWorld)
            = before
              ++ EvGet imageUrl
                 :: EvUpload (lit "image") [137; 80; 78; 71]%N
                      (lit "code-snippet-0b8f6a52-5d0c-4c9e-9a63-2f6c1f0e7d11.png")
                 :: after
            /\ count isGet before = 0 /\ count isUpload before = 0
            /\ count isGet after = 0 /\ count isUpload after = 0.
Proof.
  assert (Hin : In (EvUpload (lit "image") [137; 80; 78; 71]%N
                      (lit "code-snippet-0b8f6a52-5d0c-4c9e-9a63-2f6c1f0e7d11.png"))
                   (run (generateCodeSnippet asciiToLowerCase sampleWorld))).
  { rewrite sampleWorld_run. simpl. tauto. }
  split; [exact Hin|].
  exact (upload_carries_fetched_bytes asciiToLowerCase sampleWorld _ _ _ Hin).
Defined.

(** X6.  When the fetch succeeds and the upload resolves with an asset
    document, the trace of [createSanityPost] is the fetch, the upload, the
    create call and its final line, and the image reference of the created
    document is the [_id] member of the asset document; when that document
    has no [_id] the reference is [undefined] (not null) and no error is
    reported. *)
Theorem asset_reference_is_uploaded_id
    (toLowerCase : jsstring -> jsstring) (w : World)
    (title snippet : jsstring) (problemExplanation : propval)
    (encoded : jsstring) (status : Z) (bytes : list N)
    (members : list (jsstring * json)) :
  encodeURIComponent title = Some encoded ->
  httpGet w (PLACEHOLDER_IMAGE_API ++ encoded) = Response status bytes ->
  (200 <= status < 300)%Z ->
  assetsUpload w bytes (uploadName w) = Resolved (JObject members) ->
  exists doc,
    run (createSanityPost toLowerCase w title snippet problemExplanation)
    = [ EvGet (PLACEHOLDER_IMAGE_API ++ encoded);
        EvUpload (lit "image") bytes (uploadName w);
        EvCreate doc;
        settledLine (clientCreate w doc) ]
    /\ doc = postDocument w title (generateSlug toLowerCase title) snippet
               problemExplanation (_ref (asset (mainImage doc)))
    /\ _ref (asset (mainImage doc))
       = match lookupOwn (lit "_id") members with
         | Some id => VData id
         | None => VUndefined
         end.
Proof.
  intros Henc Hget Hst Hup. apply okStatus_true in Hst.
  assert (Hrun : uploadImageToSanity w (PLACEHOLDER_IMAGE_API ++ encoded) []
                 = (Normal match lookupOwn (lit "_id") members with
                           | Some id => VData id
                           | None => VUndefined
                           end,
                    [ EvGet (PLACEHOLDER_IMAGE_API ++ encoded);
                      EvUpload (lit "image") bytes (uploadName w) ])).
  { rewrite uploadImageToSanity_cases, Hget, Hst, Hup. reflexivity. }
  eexists. split.
  - rewrite (createSanityPost_trace toLowerCase w title snippet
               problemExplanation encoded Henc).
    unfold assetOf, outcome, run. rewrite Hrun. cbn [fst snd app].
    reflexivity.
  - split; reflexivity.
Qed.

Lemma asset_reference_is_uploaded_id_witness :
  exists doc,
    run (createSanityPost asciiToLowerCase sampleWorld
           (lit "a Example - 11/3/2026") reverseSnippet
           (PString (lit "reverse a string")))
    = [ EvGet (PLACEHOLDER_IMAGE_API ++ lit "a%20Example%20-%2011%2F3%2F2026");
        EvUpload (lit "image") [137; 80; 78; 71]%N (uploadName sampleWorld);
        EvCreate doc;
        settledLine (clientCreate sampleWorld doc) ]
    /\ doc = postDocument sampleWorld (lit "a Example - 11/3/2026")
               (generateSlug asciiToLowerCase (lit "a Example - 11/3/2026"))
               reverseSnippet (PString (lit "reverse a string"))
               (_ref (asset (mainImage doc)))
    /\ _ref (asset (mainImage doc))
       = match lookupOwn (lit "_id") [ (lit "_id", JString (lit "image-abc")) ] with
         | Some id => VData id
         | None => VUndefined
         end.
Proof.
  apply (asset_reference_is_uploaded_id asciiToLowerCase sampleWorld
           (lit "a Example - 11/3/2026") reverseSnippet
           (PString (lit "reverse a string"))
           (lit "a%20Example%20-%2011%2F3%2F2026") 200%Z [137; 80; 78; 71]%N
           [ (lit "_id", JString (lit "image-abc")) ]);
    [reflexivity | reflexivity | lia | reflexivity].
Defined.

(** ** The last line of a run *)

Lemma EvCreate_inj (a b : Document) : EvCreate a = EvCreate b -> a = b.
Proof. intros H. injection H as H. exact H. Qed.

Lemma uploadImageToSanity_no_log (w : World) (imageUrl : jsstring)
    (label : jsstring) (arg : option jsstring) :
  ~ In (EvLog label arg) (run (uploadImageToSanity w imageUrl)).
Proof.
  unfold run. rewrite uploadImageToSanity_cases.
  destruct (httpGet w imageUrl) as [m | st b];
    [intros [H | [H | []]]; discriminate H|].
  destruct (okStatus st); [|intros [H | [H | []]]; discriminate H].
  destruct (assetsUpload w b (uploadName w)) as [response | m].
  - destruct (getMember (VData response) (lit "_id")).
    + intros [H | [H | []]]; discriminate H.
    + intros [H | [H | [H | []]]]; discriminate H.
  - intros [H | [H | [H | []]]]; discriminate H.
Qed.

(** X7.  The success line is truthful: a run logs ["Snippet post saved to
    Sanity."] exactly when it passed a document to the store's create
    operation and the store resolved that call. *)
Theorem saved_line_iff_store_resolved (toLowerCase : jsstring -> jsstring)
    (w : World) :
  In (EvLog (lit "Snippet post saved to Sanity.") None)
     (run (generateCodeSnippet toLowerCase w))
  <-> exists doc created,
        In (EvCreate doc) (run (generateCodeSnippet toLowerCase w))
        /\ clientCreate w doc = Resolved created.
Proof.
  split.
  - intros Hin. rewrite generateCodeSnippet_cases in Hin |- *.
    destruct Hin as [H | Hin]; [discriminate H|].
    destruct (completionAnswer w) as [m | status data];
      [destruct Hin as [H | []]; discriminate H|].
    destruct (okStatus status);
      [|destruct Hin as [H | []]; discriminate H].
    destruct (expectedText data) as [t|];
      [|destruct Hin as [H | []]; discriminate H].
    destruct Hin as [H | Hin]; [discriminate H|].
    destruct (selectPrompt (mathRandom w)) as [p|];
      [|destruct Hin as [H | []]; discriminate H].
    rewrite createSanityPost_cases in Hin |- *.
    destruct (encodeURIComponent (uniqueTitleOf w p)) as [encoded|];
      [|destruct Hin as [H | []]; discriminate H].
    apply in_app_or in Hin. destruct Hin as [Hin | [H | [H | []]]].
    + exfalso. exact (uploadImageToSanity_no_log _ _ _ _ Hin).
    + discriminate H.
    + match type of H with
      | settledLine (clientCreate w ?d) = _ =>
          destruct (clientCreate w d) as [created | m] eqn:Hc;
            [exists d, created | discriminate H]
      end.
      split; [|exact Hc]. right. right. apply in_or_app. right. left.
      reflexivity.
  - intros [doc [created [Hin Hres]]].
    destruct (run_reaches_creation toLowerCase w _ Hin eq_refl)
      as [p [t [Hsel [Hsnip Hc]]]].
    rewrite (run_success_split toLowerCase w p t Hsel Hsnip).
    apply in_or_app. right.
    rewrite createSanityPost_cases in Hc |- *.
    destruct (encodeURIComponent (uniqueTitleOf w p)) as [encoded|];
      [|destruct Hc as [H | []]; discriminate H].
    apply in_app_or in Hc. destruct Hc as [Hc | [H | [H | []]]].
    + exfalso. exact (uploadImageToSanity_no_create _ _ _ Hc).
    + apply EvCreate_inj in H. subst doc.
      apply in_or_app. right. right. left. rewrite Hres. reflexivity.
    + exfalso.
      match type of H with
      | settledLine ?r = _ => destruct r; discriminate H
      end.
Qed.

(** ** Titles *)

(** The second word of every prompt of the list is an article. *)
Lemma second_word_of_prompt (p : jsstring) :
  In p promptList ->
  nth_error (splitSpace p) 1 = Some (lit "a")
  \/ nth_error (splitSpace p) 1 = Some (lit "an").
Proof.
  intros H. simpl in H.
  repeat (destruct H as [<- | H];
          [first [left; reflexivity | right; reflexivity]|]).
  contradiction.
Qed.

(** X8.  The title does not tell the prompts apart: the second word of every
    prompt of the list is ["a"] or ["an"], so every document a run creates is
    titled ["a Example - <date>"] or ["an Example - <date>"], with the locale
    date of the run; two runs on prompts with the same article and the same
    date give the same title. *)
Theorem created_title_is_article_and_date
    (toLowerCase : jsstring -> jsstring) (w : World) (doc : Document) :
  In (EvCreate doc) (run (generateCodeSnippet toLowerCase w)) ->
  title doc = lit "a Example - " ++ toLocaleDateString w
  \/ title doc = lit "an Example - " ++ toLocaleDateString w.
Proof.
  intros Hin.
  destruct (generateCodeSnippet_creates toLowerCase w doc Hin)
    as [p [st [data [t [enc [assetId [Hsel [_ [_ [_ [_ [-> _]]]]]]]]]]]].
  cbn [title postDocument]. unfold uniqueTitleOf.
  destruct (second_word_of_prompt p (selectPrompt_listed _ _ Hsel)) as [-> | ->];
    [left | right]; reflexivity.
Qed.

Lemma created_title_is_article_and_date_witness :
  In (EvCreate samplePost)
     (run (generateCodeSnippet asciiToLowerCase sampleWorld))
  /\ (title samplePost = lit "a Example - " ++ toLocaleDateString sampleWorld
      \/ title samplePost
         = lit "an Example - " ++ toLocaleDateString sampleWorld).
Proof.
  split; [exact samplePost_created|].
  exact (created_title_is_article_and_date asciiToLowerCase sampleWorld
           samplePost samplePost_created).
Defined.

(** ** When a document is created *)

Lemma wellFormed_app (a b : jsstring) :
  WellFormed a -> WellFormed b -> WellFormed (a ++ b).
Proof.
  induction 1; intros Hb; cbn [app].
  - exact Hb.
  - apply wf_unit; auto.
  - apply wf_pair; auto.
Qed.

Lemma wellFormed_no_surrogate (s : jsstring) :
  (forall c, In c s -> isSurrogate c = false) -> WellFormed s.
Proof.
  induction s as [|c s IH]; intros H; [constructor|].
  apply wf_unit; [apply H; left; reflexivity|].
  apply IH. intros x Hx. apply H. right. exact Hx.
Qed.

Lemma uniqueTitleOf_wellFormed (w : World) (p : jsstring) :
  In p promptList -> WellFormed (toLocaleDateString w) ->
  WellFormed (uniqueTitleOf w p).
Proof.
  intros Hp Hd. unfold uniqueTitleOf.
  apply wellFormed_app; [|apply wellFormed_app; [|exact Hd]].
  - destruct (second_word_of_prompt p Hp) as [-> | ->];
      apply wellFormed_no_surrogate; intros c Hc; simpl in Hc;
      repeat (destruct Hc as [<- | Hc]; [reflexivity|]); contradiction.
  - apply wellFormed_no_surrogate. intros c Hc. simpl in Hc.
    repeat (destruct Hc as [<- | Hc]; [reflexivity|]). contradiction.
Qed.

Lemma selectPrompt_defined (random : double) :
  inUnitInterval random = true ->
  exists p, selectPrompt random = Some p /\ In p promptList.
Proof.
  intros Hr.
  destruct (promptAt_defined (selectIndex random) (selectIndex_bounds random Hr))
    as [p [Hp [Hin _]]].
  exists p. split; [exact Hp | exact Hin].
Qed.

Lemma generatedSnippet_none_iff (w : World) :
  generatedSnippet w = None <-> TextGenerationFails (completionAnswer w).
Proof.
  unfold generatedSnippet. split.
  - destruct (completionAnswer w) as [m | status data]; [constructor|].
    destruct (Z.leb_spec 200 status);
      [|intros _; apply non_success_response; lia].
    destruct (Z.ltb_spec status 300);
      [|intros _; apply non_success_response; lia].
    cbn [andb]. destruct (expectedText data) eqn:E; [discriminate|].
    intros _. apply missing_text_field, E.
  - intros H. inversion H as [m Hm | st data Hst Hm | st data Ht Hm].
    + reflexivity.
    + destruct (Z.leb_spec 200 st); [|reflexivity].
      destruct (Z.ltb_spec st 300); [lia | reflexivity].
    + rewrite Ht. destruct ((200 <=? st)%Z && (st <? 300)%Z); reflexivity.
Qed.

(** X9.  With a random value of [[0,1)] and a well-formed locale date, a run
    passes a document to the store exactly when the text generation did not
    fail: once a snippet is there nothing but the store itself stands
    between the run and the create call (an image failure does not, an empty
    snippet does not). *)
Theorem creates_iff_generation_succeeds
    (toLowerCase : jsstring -> jsstring) (w : World) :
  inUnitInterval (mathRandom w) = true ->
  WellFormed (toLocaleDateString w) ->
  ((exists doc, In (EvCreate doc) (run (generateCodeSnippet toLowerCase w)))
   <-> ~ TextGenerationFails (completionAnswer w)).
Proof.
  intros Hr Hd. split.
  - intros [doc Hin] Hfail.
    destruct (generateCodeSnippet_failure toLowerCase w Hfail) as [e He].
    unfold run in Hin. rewrite He in Hin.
    destruct Hin as [H | [H | []]]; discriminate H.
  - intros Hok.
    destruct (generatedSnippet w) as [t|] eqn:Hsnip;
      [|exfalso; apply Hok, generatedSnippet_none_iff, Hsnip].
    destruct (selectPrompt_defined _ Hr) as [p [Hsel Hp]].
    rewrite (run_success_split toLowerCase w p t Hsel Hsnip).
    pose proof (uniqueTitleOf_wellFormed w p Hp Hd) as Hwf.
    apply (createSanityPost_creates_iff toLowerCase w (uniqueTitleOf w p) t
             (generateProblemExplanation p)) in Hwf.
    destruct Hwf as [doc Hin]. exists doc.
    apply in_or_app. right. exact Hin.
Qed.

Lemma sampleWorld_date_wellFormed : WellFormed (toLocaleDateString sampleWorld).
Proof.
  apply wellFormed_no_surrogate. intros c Hc. simpl in Hc.
  repeat (destruct Hc as [<- | Hc]; [reflexivity|]). contradiction.
Defined.

Lemma creates_iff_generation_succeeds_witness :
  inUnitInterval (mathRandom sampleWorld) = true
  /\ WellFormed (toLocaleDateString sampleWorld)
  /\ ((exists doc,
         In (EvCreate doc)
            (run (generateCodeSnippet asciiToLowerCase sampleWorld)))
      <-> ~ TextGenerationFails (completionAnswer sampleWorld)).
Proof.
  split; [reflexivity|]. split; [exact sampleWorld_date_wellFormed|].
  exact (creates_iff_generation_succeeds asciiToLowerCase sampleWorld
           eq_refl sampleWorld_date_wellFormed).
Defined.

(** ** Empty snippets *)

Lemma trimStart_whitespace (s : jsstring) :
  (forall c, In c s -> isWhiteSpace c = true) -> trimStart s = [].
Proof.
  induction s as [|a s IH]; intros H; [reflexivity|].
  cbn [trimStart]. rewrite (H a) by (left; reflexivity).
  apply IH. intros c Hc. apply H. right. exact Hc.
Qed.

Lemma trim_empty_iff (s : jsstring) :
  trim s = [] <-> (forall c, In c s -> isWhiteSpace c = true).
Proof.
  split.
  - intros He c Hc.
    destruct (trim_spec s) as [pre [post [Hs [Hpre [Hpost _]]]]].
    rewrite He in Hs. cbn [app] in Hs. rewrite Hs in Hc.
    apply in_app_or in Hc. destruct Hc; [apply Hpre | apply Hpost]; assumption.
  - intros H. unfold trim, trimEnd. rewrite (trimStart_whitespace s H).
    reflexivity.
Qed.

(** X10.  Nothing guards against an empty snippet: when the text the
    generation returns consists of whitespace only (or is empty), the run
    goes on as usual and the document it creates carries an empty code
    field; conversely the code field of a created document is empty only
    then. *)
Theorem blank_text_gives_empty_code
    (toLowerCase : jsstring -> jsstring) (w : World)
    (status : Z) (data : json) (returned : jsstring) :
  inUnitInterval (mathRandom w) = true ->
  WellFormed (toLocaleDateString w) ->
  completionAnswer w = Response status data ->
  (200 <= status < 300)%Z ->
  expectedText data = Some returned ->
  (exists doc, In (EvCreate doc) (run (generateCodeSnippet toLowerCase w)))
  /\ forall doc,
       In (EvCreate doc) (run (generateCodeSnippet toLowerCase w)) ->
       (nth_error (body doc) 2
        = Some (CodeBlock (lit "code") (lit "Code Snippet") []
                  (lit "javascript"))
        <-> forall c, In c returned -> isWhiteSpace c = true).
Proof.
  intros Hr Hd Hans Hst Htext.
  destruct (selectPrompt_defined _ Hr) as [p [Hsel Hp]].
  assert (Hwf : WellFormed (uniqueTitleOf w p))
    by (apply uniqueTitleOf_wellFormed; assumption).
  apply encodeURIComponent_defined in Hwf. destruct Hwf as [enc Henc].
  split.
  - destruct (generateCodeSnippet_success toLowerCase w p status data returned
                enc Hsel Hans Hst Htext Henc) as [assetId Hin].
    eexists. exact Hin.
  - intros doc Hin.
    destruct (generateCodeSnippet_creates toLowerCase w doc Hin)
      as [p' [st' [d' [t' [enc' [assetId [_ [Hans' [_ [Ht' [_ [-> _]]]]]]]]]]]].
    rewrite Hans in Hans'. injection Hans' as <- <-.
    rewrite Htext in Ht'. injection Ht' as <-.
    cbn [body postDocument postBody nth_error].
    rewrite <- trim_empty_iff. split.
    + intros H. injection H as H. exact H.
    + intros ->. reflexivity.
Qed.

Lemma blank_text_gives_empty_code_witness :
  completionAnswer blankWorld = Response 200 blankCompletion
  /\ expectedText blankCompletion = Some [32; 10; 9; 32]%N
  /\ (exists doc,
        In (EvCreate doc) (run (generateCodeSnippet asciiToLowerCase blankWorld)))
  /\ forall doc,
       In (EvCreate doc) (run (generateCodeSnippet asciiToLowerCase blankWorld)) ->
       (nth_error (body doc) 2
        = Some (CodeBlock (lit "code") (lit "Code Snippet") []
                  (lit "javascript"))
        <-> forall c, In c [32; 10; 9; 32]%N -> isWhiteSpace c = true).
Proof.
  split; [reflexivity|]. split; [reflexivity|].
  apply (blank_text_gives_empty_code asciiToLowerCase blankWorld 200%Z
           blankCompletion [32; 10; 9; 32]%N);
    [reflexivity | exact sampleWorld_date_wellFormed | reflexivity | lia
    | reflexivity].
Defined.

(** ** The resolver on arbitrary strings *)

Lemma lookupOwn_In (A : Type) (key : jsstring) (v : A) :
  forall members : list (jsstring * A),
    lookupOwn key members = Some v -> In (key, v) members.
Proof.
  induction members as [|[k x] rest IH]; intros H; [discriminate|].
  cbn [lookupOwn] in H.
  destruct (lookupOwn key rest) as [v'|] eqn:E.
  - injection H as <-. right. apply IH. reflexivity.
  - destruct (jsstring_eqb key k) eqn:Ek; [|discriminate].
    injection H as <-. apply jsstring_eqb_eq in Ek. subst k. left. reflexivity.
Qed.

Lemma generateProblemExplanation_inherited (prompt : jsstring) :
  In prompt objectPrototypeNames ->
  generateProblemExplanation prompt = PInherited prompt.
Proof.
  intros H. cbv [objectPrototypeNames map] in H.
  repeat (destruct H as [<- | H]; [reflexivity|]). destruct H.
Qed.

(** X11.  On every string the resolver returns something truthy, never
    [undefined] and never the empty string.  For each of the twelve
    property names of Object.prototype it returns the inherited member of
    that name, never the fallback.  For every other string it returns a
    non-empty string: the explanation of the table when the string is a
    prompt of the list, the fallback when it is not.  So the result is
    either such a string, for a string that is no property name of
    Object.prototype, or the inherited member, for one that is. *)
Theorem generateProblemExplanation_total (prompt : jsstring) :
  truthy (generateProblemExplanation prompt) = true
  /\ (In prompt objectPrototypeNames ->
      generateProblemExplanation prompt = PInherited prompt)
  /\ (~ In prompt objectPrototypeNames -> ~ In prompt promptList ->
      generateProblemExplanation prompt = PString fallbackExplanation)
  /\ ((exists e, e <> []
                 /\ ~ In prompt objectPrototypeNames
                 /\ generateProblemExplanation prompt = PString e
                 /\ (In (prompt, e) explanationMapping
                     \/ (~ In prompt promptList /\ e = fallbackExplanation)))
      \/ (In prompt objectPrototypeNames
          /\ generateProblemExplanation prompt = PInherited prompt)).
Proof.
  pose proof (generateProblemExplanation_inherited prompt) as Hinh.
  revert Hinh.
  unfold generateProblemExplanation, getProperty.
  destruct (lookupOwn prompt explanationMapping) as [e|] eqn:El.
  - intros Hinh.
    assert (Hnp : ~ In prompt objectPrototypeNames)
      by (intros H; specialize (Hinh H); destruct e; discriminate Hinh).
    pose proof (lookupOwn_In _ _ _ _ El) as Hin.
    assert (Hl : In prompt promptList).
    { rewrite <- explanationMapping_keys. apply in_map_iff.
      exists (prompt, e). split; [reflexivity | exact Hin]. }
    destruct (listed_prompt_explanation prompt Hl) as [e' [El' [Hne _]]].
    rewrite El in El'. injection El' as <-.
    destruct e as [|c e]; [contradiction Hne; reflexivity|].
    cbn [truthy]. split; [reflexivity|].
    split; [intros H; contradiction (Hnp H)|].
    split; [intros _ H; contradiction (H Hl)|]. left.
    exists (c :: e). split; [discriminate|]. split; [exact Hnp|].
    split; [reflexivity|]. left. exact Hin.
  - destruct (existsb (jsstring_eqb prompt) objectPrototypeNames) eqn:Ep.
    + intros _.
      assert (Hp : In prompt objectPrototypeNames).
      { apply existsb_exists in Ep. destruct Ep as [n [Hn En]].
        apply jsstring_eqb_eq in En. subst n. exact Hn. }
      cbn [truthy]. split; [reflexivity|]. split; [reflexivity|].
      split; [intros H; contradiction (H Hp)|].
      right. split; [exact Hp | reflexivity].
    + intros Hinh.
      assert (Hnp : ~ In prompt objectPrototypeNames)
        by (intros H; specialize (Hinh H); discriminate Hinh).
      split; [reflexivity|]. split; [intros H; contradiction (Hnp H)|].
      split; [reflexivity|]. left. exists fallbackExplanation.
      split; [discriminate|]. split; [exact Hnp|]. split; [reflexivity|].
      right. split; [|reflexivity]. intros Hl.
      destruct (listed_prompt_explanation prompt Hl) as [e' [El' _]].
      congruence.
Qed.

Lemma generateProblemExplanation_total_witness :
  In (lit "toString") objectPrototypeNames
  /\ generateProblemExplanation (lit "toString") = PInherited (lit "toString")
  /\ ~ In (lit "Explain closures.") objectPrototypeNames
  /\ ~ In (lit "Explain closures.") promptList
  /\ generateProblemExplanation (lit "Explain closures.")
     = PString fallbackExplanation.
Proof.
  assert (Hp : In (lit "toString") objectPrototypeNames)
    by (cbv [objectPrototypeNames map]; do 5 right; left; reflexivity).
  assert (Hn : ~ In (lit "Explain closures.") objectPrototypeNames).
  { cbv [objectPrototypeNames map]. intros H.
    repeat (destruct H as [H | H]; [discriminate H|]). destruct H. }
  assert (Hl : ~ In (lit "Explain closures.") promptList).
  { cbv [promptList]. intros H.
    repeat (destruct H as [H | H]; [discriminate H|]). destruct H. }
  split; [exact Hp|].
  split;
    [exact (proj1 (proj2 (generateProblemExplanation_total (lit "toString")))
              Hp)|].
  split; [exact Hn|]. split; [exact Hl|].
  exact (proj1 (proj2 (proj2
           (generateProblemExplanation_total (lit "Explain closures."))))
           Hn Hl).
Defined.

(** ** More on slugs *)

Lemma replaceRuns_keeps (cls : N -> bool) (rep : jsstring) (c : N) :
  forall (s : jsstring) (inRun : bool),
    In c s -> cls c = false -> In c (replaceRuns cls rep inRun s).
Proof.
  induction s as [|a s IH]; intros inRun Hin Hc; [contradiction|].
  cbn [replaceRuns]. destruct Hin as [-> | Hin].
  - rewrite Hc. left. reflexivity.
  - destruct (cls a).
    + destruct inRun; [|apply in_or_app; right]; apply IH; assumption.
    + right. apply IH; assumption.
Qed.

Lemma replaceRuns_marks (cls : N -> bool) (rep : jsstring) :
  forall s : jsstring,
    (exists x, In x s /\ cls x = true) ->
    forall h, In h rep -> In h (replaceRuns cls rep false s).
Proof.
  induction s as [|a s IH]; intros [x [Hx Hc]] h Hh; [contradiction|].
  cbn [replaceRuns]. destruct (cls a) eqn:Ea.
  - apply in_or_app. left. exact Hh.
  - right. apply IH; [|exact Hh]. exists x. split; [|exact Hc].
    destruct Hx as [-> | Hx]; [congruence | exact Hx].
Qed.

Lemma replaceRuns_length (cls : N -> bool) (rep : jsstring) :
  List.length rep <= 1 ->
  forall (s : jsstring) (inRun : bool),
    List.length (replaceRuns cls rep inRun s) <= List.length s.
Proof.
  intros Hrep. induction s as [|a s IH]; intros inRun; [apply le_n|].
  cbn [replaceRuns List.length]. destruct (cls a).
  - destruct inRun.
    + specialize (IH true). lia.
    + rewrite length_app. specialize (IH true). lia.
  - cbn [List.length]. specialize (IH false). lia.
Qed.

(** X12.  The slug is never longer than the lowercased title, and it is
    empty exactly when the lowercased title holds no whitespace, no word
    character and no hyphen: a title written without any ASCII letter, digit,
    underscore, hyphen or blank (punctuation only, or a script other than
    Latin) gets the empty slug. *)
Theorem generateSlug_length_and_empty
    (toLowerCase : jsstring -> jsstring) (T : jsstring) :
  List.length (generateSlug toLowerCase T) <= List.length (toLowerCase T)
  /\ (generateSlug toLowerCase T = []
      <-> forall c, In c (toLowerCase T) ->
                    isWhiteSpace c = false /\ isWordChar c = false
                    /\ c <> hyphen).
Proof.
  unfold generateSlug, replaceAll. split.
  - etransitivity; [apply replaceRuns_length; cbn; lia|].
    apply replaceRuns_length. cbn. lia.
  - rewrite replaceRuns_empty_filter. split.
    + intros He c Hc.
      assert (Hall : forall x,
                 In x (replaceRuns isWhiteSpace [hyphen] false (toLowerCase T)) ->
                 notWordOrHyphen x = true).
      { intros x Hx. destruct (notWordOrHyphen x) eqn:E; [reflexivity|].
        assert (Hf : In x (filter (fun c => negb (notWordOrHyphen c))
                             (replaceRuns isWhiteSpace [hyphen] false
                                (toLowerCase T))))
          by (apply filter_In; rewrite E; auto).
        rewrite He in Hf. contradiction. }
      assert (Hws : isWhiteSpace c = false).
      { destruct (isWhiteSpace c) eqn:E; [|reflexivity].
        assert (Hh : In hyphen (replaceRuns isWhiteSpace [hyphen] false
                                  (toLowerCase T))).
        { apply replaceRuns_marks; [exists c; auto | left; reflexivity]. }
        apply Hall in Hh. discriminate Hh. }
      split; [exact Hws|].
      pose proof (Hall c (replaceRuns_keeps _ _ _ _ _ Hc Hws)) as Hn.
      unfold notWordOrHyphen in Hn. apply negb_true_iff in Hn.
      apply orb_false_iff in Hn. destruct Hn as [Hw Hy].
      split; [exact Hw|]. apply N.eqb_neq. exact Hy.
    + intros H.
      rewrite (replaceRuns_none isWhiteSpace [hyphen] (toLowerCase T) false)
        by (intros c Hc; apply H, Hc).
      induction (toLowerCase T) as [|a s IH]; [reflexivity|].
      cbn [filter].
      destruct (H a (or_introl eq_refl)) as [_ [Hw Hy]].
      unfold notWordOrHyphen at 1. rewrite Hw.
      apply N.eqb_neq in Hy. rewrite Hy. cbn.
      apply IH. intros c Hc. apply H. right. exact Hc.
Qed.

(** ** The image URL *)

Lemma hexDigit_unreserved (n : N) :
  (n < 16)%N -> isUriUnreserved (hexDigit n) = true.
Proof.
  intros H. unfold hexDigit, isUriUnreserved.
  apply orb_true_iff. left.
  destruct (N.ltb_spec n 10); class_arith; lia.
Qed.

Lemma percentByte_safe (b c : N) :
  (b < 256)%N -> In c (percentByte b) -> isUrlSafe c = true.
Proof.
  intros Hb [<- | [<- | [<- | []]]]; unfold isUrlSafe.
  - reflexivity.
  - rewrite hexDigit_unreserved; [reflexivity|].
    apply N.Div0.div_lt_upper_bound. exact Hb.
  - rewrite hexDigit_unreserved; [reflexivity|].
    apply N.mod_lt. discriminate.
Qed.

Lemma utf8_bytes (cp b : N) :
  (cp < 1114112)%N -> In b (utf8 cp) -> (b < 256)%N.
Proof.
  intros Hcp. unfold utf8.
  assert (H64 : forall x, (x mod 64 < 64)%N)
    by (intros x; apply N.mod_lt; discriminate).
  destruct (N.ltb_spec cp 128) as [H1 | H1].
  { intros [<- | []]. lia. }
  destruct (N.ltb_spec cp 2048) as [H2 | H2].
  { assert (cp / 64 < 32)%N by (apply N.Div0.div_lt_upper_bound; lia).
    pose proof (H64 cp).
    intros [<- | [<- | []]]; lia. }
  destruct (N.ltb_spec cp 65536) as [H3 | H3].
  { assert (cp / 4096 < 16)%N by (apply N.Div0.div_lt_upper_bound; lia).
    pose proof (H64 cp). pose proof (H64 (cp / 64)%N).
    intros [<- | [<- | [<- | []]]]; lia. }
  assert (cp / 262144 < 5)%N by (apply N.Div0.div_lt_upper_bound; lia).
  pose proof (H64 cp). pose proof (H64 (cp / 64)%N).
  pose proof (H64 (cp / 4096)%N).
  intros [<- | [<- | [<- | [<- | []]]]]; lia.
Qed.

Lemma percentEncode_safe (cp c : N) :
  (cp < 1114112)%N -> In c (percentEncode cp) -> isUrlSafe c = true.
Proof.
  intros Hcp Hc. unfold percentEncode in Hc. apply in_flat_map in Hc.
  destruct Hc as [b [Hb Hc]].
  apply (percentByte_safe b c); [apply (utf8_bytes cp b Hcp Hb) | exact Hc].
Qed.

Lemma option_map_some (A B : Type) (f : A -> B) (o : option A) (b : B) :
  option_map f o = Some b -> exists a, o = Some a /\ b = f a.
Proof.
  destruct o as [a|]; [|discriminate].
  intros H. injection H as <-. exists a. auto.
Qed.

Lemma encodeURIComponent_safe (n : nat) :
  forall s out,
    List.length s <= n ->
    (forall c, In c s -> (c < 65536)%N) ->
    encodeURIComponent s = Some out ->
    forall c, In c out -> isUrlSafe c = true.
Proof.
  induction n as [|n IH]; intros s out Hlen Hs Henc c Hc.
  - destruct s; [|cbn in Hlen; lia]. injection Henc as <-. contradiction.
  - destruct s as [|a r]; [injection Henc as <-; contradiction|].
    cbn [List.length] in Hlen. cbn [encodeURIComponent] in Henc.
    assert (Hr : forall x, In x r -> (x < 65536)%N)
      by (intros x Hx; apply Hs; right; exact Hx).
    destruct (isUriUnreserved a) eqn:Hu.
    + apply option_map_some in Henc. destruct Henc as [o [Ho ->]].
      destruct Hc as [<- | Hc].
      * unfold isUrlSafe. rewrite Hu. reflexivity.
      * apply (IH r o); [lia | exact Hr | exact Ho | exact Hc].
    + destruct (inRange 56320 57343 a) eqn:Hl; [discriminate|].
      destruct (inRange 55296 56319 a) eqn:Hh.
      * destruct r as [|lo r']; [discriminate|].
        destruct (inRange 56320 57343 lo) eqn:Hlo; [|discriminate].
        apply option_map_some in Henc. destruct Henc as [o [Ho ->]].
        apply in_app_or in Hc. destruct Hc as [Hc | Hc].
        -- apply (percentEncode_safe
                    ((a - 55296) * 1024 + (lo - 56320) + 65536)%N c);
             [|exact Hc].
           unfold inRange in Hh, Hlo. apply andb_true_iff in Hh, Hlo.
           rewrite !N.leb_le in Hh, Hlo. lia.
        -- apply (IH r' o);
             [cbn [List.length] in Hlen; lia
             | intros x Hx; apply Hr; right; exact Hx | exact Ho | exact Hc].
      * apply option_map_some in Henc. destruct Henc as [o [Ho ->]].
        apply in_app_or in Hc. destruct Hc as [Hc | Hc].
        -- apply (percentEncode_safe a c); [|exact Hc].
           pose proof (Hs a (or_introl eq_refl)). lia.
        -- apply (IH r o); [lia | exact Hr | exact Ho | exact Hc].
Qed.

Lemma uniqueTitleOf_units (w : World) (p : jsstring) :
  In p promptList ->
  (forall c, In c (toLocaleDateString w) -> (c < 65536)%N) ->
  forall c, In c (uniqueTitleOf w p) -> (c < 65536)%N.
Proof.
  intros Hp Hd c Hc. unfold uniqueTitleOf in Hc.
  apply in_app_or in Hc. destruct Hc as [Hc | Hc].
  - destruct (second_word_of_prompt p Hp) as [E | E]; rewrite E in Hc;
      simpl in Hc;
      repeat (destruct Hc as [<- | Hc]; [reflexivity|]); contradiction.
  - apply in_app_or in Hc. destruct Hc as [Hc | Hc]; [|apply Hd, Hc].
    simpl in Hc.
    repeat (destruct Hc as [<- | Hc]; [reflexivity|]). contradiction.
Qed.

Lemma uploadImageToSanity_get (w : World) (imageUrl url : jsstring) :
  In (EvGet url) (run (uploadImageToSanity w imageUrl)) -> url = imageUrl.
Proof.
  unfold run. rewrite uploadImageToSanity_cases.
  assert (Hinj : EvGet imageUrl = EvGet url -> url = imageUrl)
    by (intros H; injection H as H; symmetry; exact H).
  destruct (httpGet w imageUrl) as [m | st b].
  { intros [H | [H | []]]; [auto | discriminate H]. }
  destruct (okStatus st);
    [|intros [H | [H | []]]; [auto | discriminate H]].
  destruct (assetsUpload w b (uploadName w)) as [response | m].
  - destruct (getMember (VData response) (lit "_id")).
    + intros [H | [H | []]]; [auto | discriminate H].
    + intros [H | [H | [H | []]]]; [auto | discriminate H | discriminate H].
  - intros [H | [H | [H | []]]]; [auto | discriminate H | discriminate H].
Qed.

(** X13.  The image a run fetches is always asked of the placeholder
    service: when the locale date holds proper code units, every URL the run
    fetches is the fixed base URL followed by the percent-encoding of the
    title, made of unreserved characters and percent signs only (no blank,
    no character outside ASCII, no reserved character). *)
Theorem fetched_url_is_encoded_placeholder
    (toLowerCase : jsstring -> jsstring) (w : World) (url : jsstring) :
  (forall c, In c (toLocaleDateString w) -> (c < 65536)%N) ->
  In (EvGet url) (run (generateCodeSnippet toLowerCase w)) ->
  exists p encoded,
    selectPrompt (mathRandom w) = Some p
    /\ encodeURIComponent (uniqueTitleOf w p) = Some encoded
    /\ url = PLACEHOLDER_IMAGE_API ++ encoded
    /\ forall c, In c encoded -> isUrlSafe c = true.
Proof.
  intros Hd Hin.
  destruct (run_reaches_creation toLowerCase w _ Hin eq_refl)
    as [p [t [Hsel [_ Hc]]]].
  destruct (creation_reaches_image_step toLowerCase w _ _ _ _ Hc eq_refl)
    as [encoded [Henc Hu]].
  exists p, encoded. split; [exact Hsel|]. split; [exact Henc|].
  split; [apply (uploadImageToSanity_get w _ _ Hu)|].
  apply (encodeURIComponent_safe (List.length (uniqueTitleOf w p))
           (uniqueTitleOf w p) encoded (le_n _)); [|exact Henc].
  apply uniqueTitleOf_units; [|exact Hd].
  exact (selectPrompt_listed _ _ Hsel).
Qed.

Lemma sampleWorld_date_units :
  forall c, In c (toLocaleDateString sampleWorld) -> (c < 65536)%N.
Proof.
  intros c Hc. simpl in Hc.
  repeat (destruct Hc as [<- | Hc]; [reflexivity|]). contradiction.
Defined.

Lemma fetched_url_is_encoded_placeholder_witness :
  In (EvGet (PLACEHOLDER_IMAGE_API ++ lit "a%20Example%20-%2011%2F3%2F2026"))
     (run (generateCodeSnippet asciiToLowerCase sampleWorld))
  /\ exists p encoded,
       selectPrompt (mathRandom sampleWorld) = Some p
       /\ encodeURIComponent (uniqueTitleOf sampleWorld p) = Some encoded
       /\ PLACEHOLDER_IMAGE_API ++ lit "a%20Example%20-%2011%2F3%2F2026"
          = PLACEHOLDER_IMAGE_API ++ encoded
       /\ forall c, In c encoded -> isUrlSafe c = true.
Proof.
  assert (Hin : In (EvGet (PLACEHOLDER_IMAGE_API
                           ++ lit "a%20Example%20-%2011%2F3%2F2026"))
                   (run (generateCodeSnippet asciiToLowerCase sampleWorld))).
  { rewrite sampleWorld_run. simpl. tauto. }
  split; [exact Hin|].
  exact (fetched_url_is_encoded_placeholder asciiToLowerCase sampleWorld _
           sampleWorld_date_units Hin).
Defined.

(** ** The scheduled callback *)

(** X14.  One firing of the schedule: the callback logs its start line and
    then performs exactly one run, so its trace is that line followed by
    the trace of [generateCodeSnippet]; it makes exactly one text-generation
    call and creates at most one document. *)
Theorem cronCallback_is_one_run (toLowerCase : jsstring -> jsstring)
    (w : World) :
  run (cronCallback toLowerCase w)
  = EvLog (lit "Running cron job to generate and post code snippet...") None
    :: run (generateCodeSnippet toLowerCase w)
  /\ count isPost (run (cronCallback toLowerCase w)) = 1
  /\ count isCreate (run (cronCallback toLowerCase w)) <= 1.
Proof.
  assert (Hrun : run (cronCallback toLowerCase w)
                 = EvLog
                     (lit "Running cron job to generate and post code snippet...")
                     None
                   :: run (generateCodeSnippet toLowerCase w)).
  { unfold run at 1. unfold cronCallback, bind, emit. cbn [app].
    rewrite (framed_generateCodeSnippet toLowerCase w). reflexivity. }
  split; [exact Hrun|]. rewrite Hrun.
  destruct (generateCodeSnippet_counts toLowerCase w)
    as [_ [Hp [Hg [_ Hc]]]].
  set (t := run (generateCodeSnippet toLowerCase w)) in *.
  change (count isPost t = 1 /\ count isCreate t <= 1).
  lia.
Qed.

(** ** Configuration and request *)

(** X15.  The environment is never checked.  With no API key the
    text-generation call still goes out, with the header ["Bearer
    undefined"]; with no author or category identifier every document the
    run creates carries [undefined] as that reference. *)
Theorem missing_configuration_unchecked
    (toLowerCase : jsstring -> jsstring) (w : World) :
  (env_OPENAI_API_KEY w = None ->
   exists request rest,
     run (generateCodeSnippet toLowerCase w)
     = EvPost OPENAI_API_URL request (lit "Bearer undefined") :: rest)
  /\ (forall doc,
        In (EvCreate doc) (run (generateCodeSnippet toLowerCase w)) ->
        (env_SANITY_AUTHOR_ID w = None -> _ref (author doc) = VUndefined)
        /\ (env_SANITY_CATEGORY_ID w = None ->
            map _ref (categories doc) = [VUndefined])).
Proof.
  split.
  - intros Hkey. rewrite generateCodeSnippet_cases.
    unfold postEvent, authorization. rewrite Hkey.
    eexists. eexists. reflexivity.
  - intros doc Hin.
    destruct (generateCodeSnippet_creates toLowerCase w doc Hin)
      as [p [st [data [t [enc [assetId [_ [_ [_ [_ [_ [-> _]]]]]]]]]]]].
    cbn [author categories postDocument map _ref].
    split; intros ->; reflexivity.
Qed.

(** X16.  Request and document agree.  With a random value of [[0,1)] the
    run opens with one call to the completions URL whose body names the
    model ["text-davinci-003"], at most 150 tokens, temperature one half and
    a prompt of the list; and the explanation block of every document the
    run creates is built from the explanation of that very prompt. *)
Theorem request_and_document_agree
    (toLowerCase : jsstring -> jsstring) (w : World) :
  inUnitInterval (mathRandom w) = true ->
  exists p rest,
    In p promptList
    /\ run (generateCodeSnippet toLowerCase w)
       = EvPost (lit "https://api.openai.com/v1/completions")
           {| model := lit "text-davinci-003";
              prompt := Some p;
              max_tokens := 150;
              temperature := 1 # 2 |}
           (lit "Bearer " ++ optToString (env_OPENAI_API_KEY w))
         :: rest
    /\ count isPost rest = 0
    /\ forall doc,
         In (EvCreate doc) rest ->
         nth_error (body doc) 3
         = Some (textBlock (explanationText (generateProblemExplanation p))).
Proof.
  intros Hr. destruct (selectPrompt_defined _ Hr) as [p [Hsel Hp]].
  destruct (generateCodeSnippet_counts toLowerCase w)
    as [[rest Hrest] [Hpost _]].
  exists p, rest. split; [exact Hp|]. split.
  - rewrite Hrest. unfold postEvent, completionRequest, authorization.
    rewrite Hsel. reflexivity.
  - split.
    + rewrite Hrest in Hpost.
      change (count isPost (postEvent w :: rest))
        with (S (count isPost rest)) in Hpost. lia.
    + intros doc Hin.
      assert (Hin' : In (EvCreate doc) (run (generateCodeSnippet toLowerCase w)))
        by (rewrite Hrest; right; exact Hin).
      destruct (generateCodeSnippet_creates toLowerCase w doc Hin')
        as [p' [st [data [t [enc [assetId [Hsel' [_ [_ [_ [_ [-> _]]]]]]]]]]]].
      rewrite Hsel in Hsel'. injection Hsel' as <-. reflexivity.
Qed.

Lemma request_and_document_agree_witness :
  inUnitInterval (mathRandom sampleWorld) = true
  /\ exists p rest,
       In p promptList
       /\ run (generateCodeSnippet asciiToLowerCase sampleWorld)
          = EvPost (lit "https://api.openai.com/v1/completions")
              {| model := lit "text-davinci-003";
                 prompt := Some p;
                 max_tokens := 150;
                 temperature := 1 # 2 |}
              (lit "Bearer " ++ optToString (env_OPENAI_API_KEY sampleWorld))
            :: rest
       /\ count isPost rest = 0
       /\ forall doc,
            In (EvCreate doc) rest ->
            nth_error (body doc) 3
            = Some (textBlock (explanationText (generateProblemExplanation p))).
Proof.
  split; [reflexivity|].
  exact (request_and_document_agree asciiToLowerCase sampleWorld eq_refl).
Defined.

(** The sample world without its environment: the call carries ["Bearer
    undefined"] and the document two undefined references. *)
Example unconfiguredWorld_run :
  exists doc,
    run (generateCodeSnippet asciiToLowerCase unconfiguredWorld)
    = [ EvPost OPENAI_API_URL
          (completionRequest
             (Some (lit "Write a JavaScript function to reverse a string.")))
          (lit "Bearer undefined");
        EvLog (lit "Generated Snippet:") (Some reverseSnippet);
        EvGet (PLACEHOLDER_IMAGE_API ++ lit "a%20Example%20-%2011%2F3%2F2026");
        EvUpload (lit "image") [137; 80; 78; 71]%N
          (lit "code-snippet-0b8f6a52-5d0c-4c9e-9a63-2f6c1f0e7d11.png");
        EvCreate doc;
        EvLog (lit "Snippet post saved to Sanity.") None ]
    /\ _ref (author doc) = VUndefined
    /\ map _ref (categories doc) = [VUndefined].
Proof. eexists. repeat split. Qed.

(** A title ending in half a surrogate pair: one error line, no call. *)
Example illFormed_title_run :
  ~ WellFormed [104; 105; 55357]%N
  /\ run (createSanityPost asciiToLowerCase sampleWorld [104; 105; 55357]%N
            reverseSnippet (PString (lit "reverse a string")))
     = [EvError (lit "Error saving snippet post to Sanity:") URIError].
Proof.
  split; [|reflexivity].
  intros H. apply encodeURIComponent_defined in H.
  destruct H as [out H]. discriminate H.
Qed.

Local Close Scope nat_scope.
